(** * Persona-elimination flow of the movie recommender (system A)

    A shallow embedding of [system_a.py] (the step machine), of the
    session bootstrap in [app.py] and of the restart button of
    [system_b.py], together with the properties of the elimination
    protocol that the specification states.

    Conventions of the embedding.
    - Values coming back from the language model are untyped JSON; they
      are values of [json].  A Python [str] is a [string] (a sequence of
      bytes), so the character-wise builtins ([str.strip], [int] on a
      string, iteration over a string) are modelled on ASCII.
    - [st.session_state] is the record [session] for the typed keys the
      steps read and write, and a [gmap string json] where the code
      walks over the keys themselves (restart).
    - One run of a step function is one Streamlit script run: it takes
      the session, the button pressed in this run and the outcomes of
      the oracle attempts, and returns the new session with the trace of
      observable events.  [st.rerun()] ends the run, so everything after
      it in the source is not executed. *)

From Stdlib Require Import ZArith QArith Qround List String Ascii Lia Bool.
From stdpp Require Import base list strings gmap.

#[local] Set Warnings "-register-all".

Open Scope Z_scope.
Open Scope string_scope.
Open Scope list_scope.

(** ** Untyped oracle values *)

Inductive pyfloat :=
| FFinite (q : Q)
| FInf (negative : bool)
| FNaN.

Inductive json :=
| JNull
| JBool (b : bool)
| JInt (z : Z)
| JFloat (f : pyfloat)
| JStr (s : string)
| JList (l : list json)
| JDict (d : list (string * json)).

(** [d.get(key, default)] on a dict given by its items. *)
Fixpoint dict_get (d : list (string * json)) (key : string) (default : json) : json :=
  match d with
  | [] => default
  | (k, v) :: d' => if String.eqb k key then v else dict_get d' key default
  end.

(** [list(d.values())] *)
Definition dict_values (d : list (string * json)) : list json := map snd d.

(** *** Python builtins used by the coercion code *)

(** [str.isspace] on the ASCII range: TAB, LF, VT, FF, CR, the four
    separators 0x1c-0x1f and the blank. *)
Definition is_space (c : ascii) : bool :=
  let n := nat_of_ascii c in
  ((9 <=? n) && (n <=? 13) || (28 <=? n) && (n <=? 32))%nat.

Fixpoint lstrip (s : string) : string :=
  match s with
  | String c s' => if is_space c then lstrip s' else s
  | EmptyString => EmptyString
  end.

(** Drops trailing blanks: a character survives when it is not a blank
    or when something survives after it. *)
Fixpoint rstrip (s : string) : string :=
  match s with
  | EmptyString => EmptyString
  | String c s' =>
      match rstrip s' with
      | EmptyString => if is_space c then EmptyString else String c EmptyString
      | r => String c r
      end
  end.

(** [s.strip()] *)
Definition strip (s : string) : string := rstrip (lstrip s).

Definition digit_of (c : ascii) : option Z :=
  let n := nat_of_ascii c in
  if ((48 <=? n) && (n <=? 57))%nat then Some (Z.of_nat n - 48) else None.

(** Decimal digits with single underscores allowed between digits, as
    [int] accepts them; [acc] is the value read so far and [after_digit]
    tells whether the previous character was a digit. *)
Fixpoint parse_digits (s : string) (acc : Z) (after_digit : bool) : option Z :=
  match s with
  | EmptyString => if after_digit then Some acc else None
  | String c s' =>
      match digit_of c with
      | Some d => parse_digits s' (10 * acc + d) true
      | None =>
          if (Ascii.eqb c "_" && after_digit)%bool
          then parse_digits s' acc false
          else None
      end
  end.

(** [int(s)] for a string: blanks stripped, an optional sign, digits. *)
Definition int_of_string (s : string) : option Z :=
  match strip s with
  | String "-" r => option_map Z.opp (parse_digits r 0 false)
  | String "+" r => parse_digits r 0 false
  | r => parse_digits r 0 false
  end.

(** Truncation toward zero, as [int] does on a float. *)
Definition Qtrunc (q : Q) : Z := Z.quot (Qnum q) (Z.pos (Qden q)).

(** [int(v)]; [None] stands for the [TypeError], [ValueError] or
    [OverflowError] that the callers catch. *)
Definition py_int (v : json) : option Z :=
  match v with
  | JInt z => Some z
  | JBool b => Some (if b then 1 else 0)
  | JFloat (FFinite q) => Some (Qtrunc q)
  | JFloat _ => None
  | JStr s => int_of_string s
  | JNull | JList _ | JDict _ => None
  end.

(** [for x in v]: the items when [v] is iterable, [None] for the
    [TypeError] otherwise.  A dict iterates over its keys. *)
Definition py_iter (v : json) : option (list json) :=
  match v with
  | JList l => Some l
  | JStr s => Some (map (fun c => JStr (String c EmptyString)) (list_ascii_of_string s))
  | JDict d => Some (map (fun kv => JStr (fst kv)) d)
  | JNull | JBool _ | JInt _ | JFloat _ => None
  end.

(** Truth value of a Python object in an [if]. *)
Definition truthy (v : json) : bool :=
  match v with
  | JNull => false
  | JBool b => b
  | JInt z => negb (z =? 0)%Z
  | JFloat (FFinite q) => negb (Qeq_bool q 0)
  | JFloat _ => true
  | JStr s => negb (String.eqb s "")
  | JList l => match l with [] => false | _ => true end
  | JDict d => match d with [] => false | _ => true end
  end.

(** ** Observable events of a script run *)

Inductive event :=
| EInvoke                 (* chain.invoke(inputs) *)
| ESleep (ms : Z)         (* time.sleep, in milliseconds *)
| EWarning (msg : string) (* st.warning *)
| EError (msg : string)   (* st.error *)
| ESuccess (msg : string) (* st.success *)
| EInfo (msg : string)    (* st.info *)
| EDisplay (rec : json)   (* display_recommendation got to its buttons *)
| EReport.                (* show_analysis_report *)

(** How a script run ends: it reaches the end of the script, it is cut
    short by [st.rerun()], or an exception escapes. *)
Inductive ending := Finished | Rerun | Crashed.

(** ** Oracle gateway *)

(** One attempt of [chain.invoke]: it raises or it returns the parsed
    value.  A chain is given by the outcome of each attempt of a logical
    call, numbered from 0. *)
Inductive attempt_result :=
| Fails (e : string)
| Yields (v : json).

Definition chain := nat -> attempt_result.

Inductive llm_result :=
| Raised (e : string)
| Returned (v : json).

(** The body of [for attempt in range(max_retries)] with [remaining]
    iterations to go; falling off the loop returns [None]. *)
Fixpoint retry_loop (c : chain) (max_retries remaining : nat) : list event * llm_result :=
  match remaining with
  | O => ([], Returned JNull)
  | S remaining' =>
      let attempt := (max_retries - remaining)%nat in
      match c attempt with
      | Yields v => ([EInvoke; ESleep 500], Returned v)
      | Fails e =>
          if (attempt <? max_retries - 1)%nat then
            let '(tr, r) := retry_loop c max_retries remaining' in
            (EInvoke :: EWarning "API呼び出し失敗、再試行中..." :: ESleep 2000 :: tr, r)
          else ([EInvoke; EError "API呼び出し失敗"], Raised e)
      end
  end.

Definition safe_llm_call_with (c : chain) (max_retries : nat) : list event * llm_result :=
  retry_loop c max_retries max_retries.

(** [safe_llm_call(chain, inputs)]: every call site keeps the default
    [max_retries=2]. *)
Definition safe_llm_call (c : chain) : list event * llm_result :=
  safe_llm_call_with c 2.

(** [st.session_state.api_call_count += 1] happens once per attempt. *)
Definition invocations (tr : list event) : Z :=
  Z.of_nat (length (List.filter (fun e => match e with EInvoke => true | _ => false end) tr)).

(** ** Data model *)

Record persona := {
  profile_id : Z;
  basic_info : json;
  personality : json;
  values : json
}.

(** One entry of [quantitative_analysis]: the score vector of a persona. *)
Record analysis := {
  analysis_profile_id : Z;
  scores : list Z;
  explanations : list json
}.

Record elimination_record := {
  eliminated_id : Z;
  reason : json;
  question : json;
  answer : string
}.

(** The keys of [st.session_state] that steps 1 and 3 to 6 read or
    write, [last_api_call] (a time stamp nothing reads) left aside.
    [None] in [final_profile] and [JNull] in [recommendation] are
    Python's [None]. *)
Record session := {
  step : Z;
  user_profiles : list persona;
  quantitative_analysis : list analysis;
  liked_movies : list string;
  disliked_movies : list string;
  questions_asked : list json;
  answers_given : list string;
  current_question : json;
  current_scale : string;
  final_profile : option persona;
  recommendation : json;
  elimination_history : list elimination_record;
  processing : bool;
  analysis_completed : bool;
  api_call_count : Z;
  elimination_completed : bool;
  used_scale_indices : list nat;
  current_options : list (string * json)
}.

(** [st.session_state.key = x], one function per key. *)

Definition set_step (x : Z) (s : session) : session :=
  {| step := x; user_profiles := user_profiles s;
     quantitative_analysis := quantitative_analysis s;
     liked_movies := liked_movies s; disliked_movies := disliked_movies s;
     questions_asked := questions_asked s; answers_given := answers_given s;
     current_question := current_question s;
     current_scale := current_scale s; final_profile := final_profile s;
     recommendation := recommendation s;
     elimination_history := elimination_history s;
     processing := processing s; analysis_completed := analysis_completed s;
     api_call_count := api_call_count s;
     elimination_completed := elimination_completed s;
     used_scale_indices := used_scale_indices s;
     current_options := current_options s |}.

Definition set_user_profiles (x : list persona) (s : session) : session :=
  {| step := step s; user_profiles := x;
     quantitative_analysis := quantitative_analysis s;
     liked_movies := liked_movies s; disliked_movies := disliked_movies s;
     questions_asked := questions_asked s; answers_given := answers_given s;
     current_question := current_question s;
     current_scale := current_scale s; final_profile := final_profile s;
     recommendation := recommendation s;
     elimination_history := elimination_history s;
     processing := processing s; analysis_completed := analysis_completed s;
     api_call_count := api_call_count s;
     elimination_completed := elimination_completed s;
     used_scale_indices := used_scale_indices s;
     current_options := current_options s |}.

Definition set_quantitative_analysis (x : list analysis) (s : session) : session :=
  {| step := step s; user_profiles := user_profiles s;
     quantitative_analysis := x; liked_movies := liked_movies s;
     disliked_movies := disliked_movies s;
     questions_asked := questions_asked s; answers_given := answers_given s;
     current_question := current_question s;
     current_scale := current_scale s; final_profile := final_profile s;
     recommendation := recommendation s;
     elimination_history := elimination_history s;
     processing := processing s; analysis_completed := analysis_completed s;
     api_call_count := api_call_count s;
     elimination_completed := elimination_completed s;
     used_scale_indices := used_scale_indices s;
     current_options := current_options s |}.

Definition set_liked_movies (x : list string) (s : session) : session :=
  {| step := step s; user_profiles := user_profiles s;
     quantitative_analysis := quantitative_analysis s; liked_movies := x;
     disliked_movies := disliked_movies s;
     questions_asked := questions_asked s; answers_given := answers_given s;
     current_question := current_question s;
     current_scale := current_scale s; final_profile := final_profile s;
     recommendation := recommendation s;
     elimination_history := elimination_history s;
     processing := processing s; analysis_completed := analysis_completed s;
     api_call_count := api_call_count s;
     elimination_completed := elimination_completed s;
     used_scale_indices := used_scale_indices s;
     current_options := current_options s |}.

Definition set_disliked_movies (x : list string) (s : session) : session :=
  {| step := step s; user_profiles := user_profiles s;
     quantitative_analysis := quantitative_analysis s;
     liked_movies := liked_movies s; disliked_movies := x;
     questions_asked := questions_asked s; answers_given := answers_given s;
     current_question := current_question s;
     current_scale := current_scale s; final_profile := final_profile s;
     recommendation := recommendation s;
     elimination_history := elimination_history s;
     processing := processing s; analysis_completed := analysis_completed s;
     api_call_count := api_call_count s;
     elimination_completed := elimination_completed s;
     used_scale_indices := used_scale_indices s;
     current_options := current_options s |}.

Definition set_questions_asked (x : list json) (s : session) : session :=
  {| step := step s; user_profiles := user_profiles s;
     quantitative_analysis := quantitative_analysis s;
     liked_movies := liked_movies s; disliked_movies := disliked_movies s;
     questions_asked := x; answers_given := answers_given s;
     current_question := current_question s;
     current_scale := current_scale s; final_profile := final_profile s;
     recommendation := recommendation s;
     elimination_history := elimination_history s;
     processing := processing s; analysis_completed := analysis_completed s;
     api_call_count := api_call_count s;
     elimination_completed := elimination_completed s;
     used_scale_indices := used_scale_indices s;
     current_options := current_options s |}.

Definition set_answers_given (x : list string) (s : session) : session :=
  {| step := step s; user_profiles := user_profiles s;
     quantitative_analysis := quantitative_analysis s;
     liked_movies := liked_movies s; disliked_movies := disliked_movies s;
     questions_asked := questions_asked s; answers_given := x;
     current_question := current_question s;
     current_scale := current_scale s; final_profile := final_profile s;
     recommendation := recommendation s;
     elimination_history := elimination_history s;
     processing := processing s; analysis_completed := analysis_completed s;
     api_call_count := api_call_count s;
     elimination_completed := elimination_completed s;
     used_scale_indices := used_scale_indices s;
     current_options := current_options s |}.

Definition set_current_question (x : json) (s : session) : session :=
  {| step := step s; user_profiles := user_profiles s;
     quantitative_analysis := quantitative_analysis s;
     liked_movies := liked_movies s; disliked_movies := disliked_movies s;
     questions_asked := questions_asked s; answers_given := answers_given s;
     current_question := x; current_scale := current_scale s;
     final_profile := final_profile s; recommendation := recommendation s;
     elimination_history := elimination_history s;
     processing := processing s; analysis_completed := analysis_completed s;
     api_call_count := api_call_count s;
     elimination_completed := elimination_completed s;
     used_scale_indices := used_scale_indices s;
     current_options := current_options s |}.

Definition set_current_scale (x : string) (s : session) : session :=
  {| step := step s; user_profiles := user_profiles s;
     quantitative_analysis := quantitative_analysis s;
     liked_movies := liked_movies s; disliked_movies := disliked_movies s;
     questions_asked := questions_asked s; answers_given := answers_given s;
     current_question := current_question s; current_scale := x;
     final_profile := final_profile s; recommendation := recommendation s;
     elimination_history := elimination_history s;
     processing := processing s; analysis_completed := analysis_completed s;
     api_call_count := api_call_count s;
     elimination_completed := elimination_completed s;
     used_scale_indices := used_scale_indices s;
     current_options := current_options s |}.

Definition set_final_profile (x : option persona) (s : session) : session :=
  {| step := step s; user_profiles := user_profiles s;
     quantitative_analysis := quantitative_analysis s;
     liked_movies := liked_movies s; disliked_movies := disliked_movies s;
     questions_asked := questions_asked s; answers_given := answers_given s;
     current_question := current_question s;
     current_scale := current_scale s; final_profile := x;
     recommendation := recommendation s;
     elimination_history := elimination_history s;
     processing := processing s; analysis_completed := analysis_completed s;
     api_call_count := api_call_count s;
     elimination_completed := elimination_completed s;
     used_scale_indices := used_scale_indices s;
     current_options := current_options s |}.

Definition set_recommendation (x : json) (s : session) : session :=
  {| step := step s; user_profiles := user_profiles s;
     quantitative_analysis := quantitative_analysis s;
     liked_movies := liked_movies s; disliked_movies := disliked_movies s;
     questions_asked := questions_asked s; answers_given := answers_given s;
     current_question := current_question s;
     current_scale := current_scale s; final_profile := final_profile s;
     recommendation := x; elimination_history := elimination_history s;
     processing := processing s; analysis_completed := analysis_completed s;
     api_call_count := api_call_count s;
     elimination_completed := elimination_completed s;
     used_scale_indices := used_scale_indices s;
     current_options := current_options s |}.

Definition set_elimination_history (x : list elimination_record) (s : session) : session :=
  {| step := step s; user_profiles := user_profiles s;
     quantitative_analysis := quantitative_analysis s;
     liked_movies := liked_movies s; disliked_movies := disliked_movies s;
     questions_asked := questions_asked s; answers_given := answers_given s;
     current_question := current_question s;
     current_scale := current_scale s; final_profile := final_profile s;
     recommendation := recommendation s; elimination_history := x;
     processing := processing s; analysis_completed := analysis_completed s;
     api_call_count := api_call_count s;
     elimination_completed := elimination_completed s;
     used_scale_indices := used_scale_indices s;
     current_options := current_options s |}.

Definition set_processing (x : bool) (s : session) : session :=
  {| step := step s; user_profiles := user_profiles s;
     quantitative_analysis := quantitative_analysis s;
     liked_movies := liked_movies s; disliked_movies := disliked_movies s;
     questions_asked := questions_asked s; answers_given := answers_given s;
     current_question := current_question s;
     current_scale := current_scale s; final_profile := final_profile s;
     recommendation := recommendation s;
     elimination_history := elimination_history s; processing := x;
     analysis_completed := analysis_completed s;
     api_call_count := api_call_count s;
     elimination_completed := elimination_completed s;
     used_scale_indices := used_scale_indices s;
     current_options := current_options s |}.

Definition set_analysis_completed (x : bool) (s : session) : session :=
  {| step := step s; user_profiles := user_profiles s;
     quantitative_analysis := quantitative_analysis s;
     liked_movies := liked_movies s; disliked_movies := disliked_movies s;
     questions_asked := questions_asked s; answers_given := answers_given s;
     current_question := current_question s;
     current_scale := current_scale s; final_profile := final_profile s;
     recommendation := recommendation s;
     elimination_history := elimination_history s;
     processing := processing s; analysis_completed := x;
     api_call_count := api_call_count s;
     elimination_completed := elimination_completed s;
     used_scale_indices := used_scale_indices s;
     current_options := current_options s |}.

Definition set_api_call_count (x : Z) (s : session) : session :=
  {| step := step s; user_profiles := user_profiles s;
     quantitative_analysis := quantitative_analysis s;
     liked_movies := liked_movies s; disliked_movies := disliked_movies s;
     questions_asked := questions_asked s; answers_given := answers_given s;
     current_question := current_question s;
     current_scale := current_scale s; final_profile := final_profile s;
     recommendation := recommendation s;
     elimination_history := elimination_history s;
     processing := processing s; analysis_completed := analysis_completed s;
     api_call_count := x; elimination_completed := elimination_completed s;
     used_scale_indices := used_scale_indices s;
     current_options := current_options s |}.

Definition set_elimination_completed (x : bool) (s : session) : session :=
  {| step := step s; user_profiles := user_profiles s;
     quantitative_analysis := quantitative_analysis s;
     liked_movies := liked_movies s; disliked_movies := disliked_movies s;
     questions_asked := questions_asked s; answers_given := answers_given s;
     current_question := current_question s;
     current_scale := current_scale s; final_profile := final_profile s;
     recommendation := recommendation s;
     elimination_history := elimination_history s;
     processing := processing s; analysis_completed := analysis_completed s;
     api_call_count := api_call_count s; elimination_completed := x;
     used_scale_indices := used_scale_indices s;
     current_options := current_options s |}.

Definition set_used_scale_indices (x : list nat) (s : session) : session :=
  {| step := step s; user_profiles := user_profiles s;
     quantitative_analysis := quantitative_analysis s;
     liked_movies := liked_movies s; disliked_movies := disliked_movies s;
     questions_asked := questions_asked s; answers_given := answers_given s;
     current_question := current_question s;
     current_scale := current_scale s; final_profile := final_profile s;
     recommendation := recommendation s;
     elimination_history := elimination_history s;
     processing := processing s; analysis_completed := analysis_completed s;
     api_call_count := api_call_count s;
     elimination_completed := elimination_completed s;
     used_scale_indices := x; current_options := current_options s |}.

Definition set_current_options (x : list (string * json)) (s : session) : session :=
  {| step := step s; user_profiles := user_profiles s;
     quantitative_analysis := quantitative_analysis s;
     liked_movies := liked_movies s; disliked_movies := disliked_movies s;
     questions_asked := questions_asked s; answers_given := answers_given s;
     current_question := current_question s;
     current_scale := current_scale s; final_profile := final_profile s;
     recommendation := recommendation s;
     elimination_history := elimination_history s;
     processing := processing s; analysis_completed := analysis_completed s;
     api_call_count := api_call_count s;
     elimination_completed := elimination_completed s;
     used_scale_indices := used_scale_indices s; current_options := x |}.

(** The session right after [init_session_state] has filled an empty
    store: the typed view of [default_states]. *)
Definition initial_session : session :=
  {| step := 1; user_profiles := []; quantitative_analysis := [];
     liked_movies := []; disliked_movies := []; questions_asked := [];
     answers_given := []; current_question := JStr ""; current_scale := "";
     final_profile := None; recommendation := JNull; elimination_history := [];
     processing := false; analysis_completed := false; api_call_count := 0;
     elimination_completed := false; used_scale_indices := [];
     current_options := [] |}.

(** ** Script runs *)

(** The buttons of the pages of steps 1 and 3 to 6.  [st.button]
    returns [True] in the run that follows the click, at the place
    where the button is rendered again.  (The restart buttons act on
    the keys of the store and are modelled there.) *)
Inductive button :=
| BtnStartAnalysis                 (* step 1: 映画嗜好分析を開始 *)
| BtnBackToStep2                   (* step 3: 前のステップに戻る *)
| BtnNextToDialogue                (* step 3: 次へ進む：対話型質問 *)
| BtnReanalyse                     (* step 3: 再分析 *)
| BtnRunAnalysis                   (* step 3: 心理的分析を開始 *)
| BtnRecommend                     (* steps 4 and 5: 映画推薦を生成 *)
| BtnBackToStep3                   (* step 4: 戻る *)
| BtnSubmit (answer_selection : string) (* step 4: 回答を送信, with the radio choice *)
| BtnChange                        (* step 4: 変更 *)
| BtnNextQuestion                  (* step 5: 次の質問へ *)
| BtnReselect                      (* step 6: 戻って再選択 *)
| BtnFAQ                           (* step 6: よくある質問を表示 *)
| BtnRegenerate                    (* step 6: 推薦を再生成 *)
| BtnReport.                       (* step 6: 分析レポートを表示 *)

Definition button_eqb (a b : button) : bool :=
  match a, b with
  | BtnStartAnalysis, BtnStartAnalysis
  | BtnBackToStep2, BtnBackToStep2
  | BtnNextToDialogue, BtnNextToDialogue
  | BtnReanalyse, BtnReanalyse
  | BtnRunAnalysis, BtnRunAnalysis
  | BtnRecommend, BtnRecommend
  | BtnBackToStep3, BtnBackToStep3
  | BtnChange, BtnChange
  | BtnNextQuestion, BtnNextQuestion
  | BtnReselect, BtnReselect
  | BtnFAQ, BtnFAQ
  | BtnRegenerate, BtnRegenerate
  | BtnReport, BtnReport => true
  | BtnSubmit x, BtnSubmit y => String.eqb x y
  | _, _ => false
  end.

(** [st.button(label)] for the button [b], given what was clicked. *)
Definition pressed (clicked : option button) (b : button) : bool :=
  match clicked with
  | Some c => button_eqb c b
  | None => false
  end.

Record run := {
  run_state : session;
  run_trace : list event;
  run_ending : ending
}.

Definition finish (s : session) (tr : list event) : run :=
  {| run_state := s; run_trace := tr; run_ending := Finished |}.

Definition rerun (s : session) (tr : list event) : run :=
  {| run_state := s; run_trace := tr; run_ending := Rerun |}.

Definition crash (s : session) (tr : list event) : run :=
  {| run_state := s; run_trace := tr; run_ending := Crashed |}.

(** The oracle calls made in a run. *)
Definition oracle_calls (r : run) : Z := invocations (run_trace r).

(** ** Step 1: intake *)

(** [re.split(r'[,\n]', s)] *)
Definition is_sep (c : ascii) : bool :=
  (Ascii.eqb c "," || Ascii.eqb c "010")%bool.

Fixpoint re_split (s : string) : list string :=
  match s with
  | EmptyString => [EmptyString]
  | String c s' =>
      if is_sep c then EmptyString :: re_split s'
      else match re_split s' with
           | w :: ws => String c w :: ws
           | [] => [String c EmptyString]
           end
  end.

(** [x in l] on a list of strings *)
Definition str_in (x : string) (l : list string) : bool :=
  existsb (String.eqb x) l.

(** One iteration of the loop over the split input. *)
Definition collect_item (movies : list string) (item : string) : list string :=
  let clean_item := strip item in
  if (negb (String.eqb clean_item "") && negb (str_in clean_item movies))%bool
  then movies ++ [clean_item]
  else movies.

Definition collect_movies (input : string) : list string :=
  fold_left collect_item (re_split input) [].

(** [if len(l) > n: l = l[:n]] *)
Definition cap {A} (n : nat) (l : list A) : list A :=
  if (n <? length l)%nat then firstn n l else l.

Definition step1_input_movies (s : session) (liked_input disliked_input : string)
    (clicked : option button) : run :=
  if pressed clicked BtnStartAnalysis then
    if negb (String.eqb (strip liked_input) "") then
      let liked_movies := collect_movies liked_input in
      let disliked_movies :=
        if negb (String.eqb (strip disliked_input) "")
        then collect_movies disliked_input else [] in
      let info_liked :=
        if (10 <? length liked_movies)%nat
        then [EInfo "好きな映画の上位10作品を選択しました"] else [] in
      let liked_movies := cap 10 liked_movies in
      let info_disliked :=
        if (5 <? length disliked_movies)%nat
        then [EInfo "嫌いな映画の上位5作品を選択しました"] else [] in
      let disliked_movies := cap 5 disliked_movies in
      let s := set_liked_movies liked_movies s in
      let s := set_disliked_movies disliked_movies s in
      let s := set_step 2 s in
      let s := set_processing false s in
      let recorded_disliked :=
        match disliked_movies with
        | [] => []
        | _ :: _ => [ESuccess "嫌いな映画を記録しました"]
        end in
      rerun s (info_liked ++ info_disliked
               ++ [ESuccess "好きな映画を記録しました"] ++ recorded_disliked
               ++ [ESleep 1000])
    else finish s [EWarning "少なくとも1作品の好きな映画を入力してください"]
  else finish s [].

(** ** Step 3: scoring and normalisation of the score vectors *)

Definition placeholder_explanation : json := JStr "詳細なし".
Definition failed_explanation : json := JStr "分析失敗".

(** The [except] branch of the per-persona call. *)
Definition fallback_analysis (profile : persona) : analysis :=
  {| analysis_profile_id := profile_id profile;
     scores := replicate 7 5;
     explanations := replicate 7 failed_explanation |}.

(** The body of [for score in raw_scores]. *)
Definition coerce_score (score : json) : Z :=
  match py_int score with
  | Some num_score => Z.max 1 (Z.min 10 num_score)
  | None => 5
  end.

(** [if len(l) < target_len: l.extend([x] * (target_len - len(l)))] *)
Definition extend_to {A} (target_len : nat) (x : A) (l : list A) : list A :=
  if (length l <? target_len)%nat then l ++ replicate (target_len - length l) x else l.

(** [list(v.values())] when [v] is a dict, [v] otherwise. *)
Definition values_if_dict (v : json) : json :=
  match v with
  | JDict d => JList (dict_values d)
  | _ => v
  end.

(** The normalisation inside the [try]; [None] is an exception, which
    the caller answers with [fallback_analysis]. *)
Definition normalize_result (profile : persona) (result : json) : option analysis :=
  match result with
  | JDict d =>
      let raw_scores := values_if_dict (dict_get d "scores" (JList [])) in
      match py_iter raw_scores with
      | None => None
      | Some items =>
          let valid_scores := map coerce_score items in
          let raw_explanations := values_if_dict (dict_get d "explanations" (JList [])) in
          let raw_explanations :=
            match raw_explanations with
            | JList l => l
            | _ => replicate 7 placeholder_explanation
            end in
          let target_len := 7%nat in
          let valid_scores := extend_to target_len 5 valid_scores in
          let raw_explanations := extend_to target_len placeholder_explanation raw_explanations in
          Some {| analysis_profile_id := profile_id profile;
                  scores := firstn target_len valid_scores;
                  explanations := firstn target_len raw_explanations |}
      end
  | _ => None
  end.

(** What is stored for one persona, for any outcome of its oracle call. *)
Definition store_analysis (profile : persona) (r : llm_result) : analysis :=
  match r with
  | Returned result =>
      match normalize_result profile result with
      | Some a => a
      | None => fallback_analysis profile
      end
  | Raised _ => fallback_analysis profile
  end.

(** The loop over the personas; [chains idx] is the oracle of the call
    made for the persona at position [idx]. *)
Fixpoint analyse_from (idx : nat) (profiles : list persona) (chains : nat -> chain)
    : list event * list analysis :=
  match profiles with
  | [] => ([], [])
  | profile :: rest =>
      let '(tr, r) := safe_llm_call (chains idx) in
      let '(tr', all_analysis) := analyse_from (S idx) rest chains in
      (tr ++ tr', store_analysis profile r :: all_analysis)
  end.

Definition step3_quantitative_analysis (s : session) (clicked : option button)
    (chains : nat -> chain) : run :=
  match user_profiles s with
  | [] =>
      let tr := [EError "ユーザペルソナデータが見つかりません"] in
      if pressed clicked BtnBackToStep2 then rerun (set_step 2 s) tr else finish s tr
  | _ :: _ =>
      let shown :=
        (analysis_completed s
         && match quantitative_analysis s with [] => false | _ => true end)%bool in
      if shown then
        let tr := [ESuccess "心理的・価値観分析が完了しました"] in
        if pressed clicked BtnNextToDialogue then
          rerun (set_analysis_completed true (set_step 4 s)) tr
        else if pressed clicked BtnReanalyse then
          rerun (set_analysis_completed false (set_quantitative_analysis [] s)) tr
        else if pressed clicked BtnBackToStep2 then rerun (set_step 2 s) tr
        else finish s tr
      else if pressed clicked BtnRunAnalysis then rerun (set_processing true s) []
      else if processing s then
        let '(tr, all_analysis) := analyse_from 0 (user_profiles s) chains in
        let s := set_api_call_count (api_call_count s + invocations tr) s in
        let s := set_quantitative_analysis all_analysis s in
        let s := set_analysis_completed true s in
        let s := set_processing false s in
        rerun s (tr ++ [ESleep 1000])
      else finish s []
  end.

(** ** Step 4: question selection *)

Record scale_definition := {
  id : Z;
  technical : string;
  keywords : string;
  simple_topic : string
}.

Definition scale_definitions : list scale_definition :=
  [ {| id := 0; technical := "認知的複雑性 (SCC)";
       keywords := "伏線回収、謎解き、考察、難解";
       simple_topic := "ストーリーの複雑さ" |};
    {| id := 1; technical := "情動的強度 (ASI)";
       keywords := "ハラハラドキドキ、衝撃的、アクション、スピード感";
       simple_topic := "刺激と興奮" |};
    {| id := 2; technical := "道徳的整合性 (MVA)";
       keywords := "社会派、正義、勧善懲悪、メッセージ性";
       simple_topic := "道徳的テーマ" |};
    {| id := 3; technical := "心理的安全性 (PSF)";
       keywords := "ハッピーエンド、王道、安心感、癒やし";
       simple_topic := "安心感" |};
    {| id := 4; technical := "美的・抽象性 (AAO)";
       keywords := "映像美、独特な世界観、雰囲気、芸術的";
       simple_topic := "映像と雰囲気" |};
    {| id := 5; technical := "社会的密度 (SRD)";
       keywords := "人間関係、恋愛、友情、会話劇";
       simple_topic := "人間ドラマ" |};
    {| id := 6; technical := "実用的リアリズム (PRI)";
       keywords := "実話ベース、リアリティ、ドキュメンタリータッチ";
       simple_topic := "リアリティ" |} ].

(** [np.array(scores_matrix)] is two-dimensional only when the rows
    have one length; otherwise taking [shape[1]] raises (or, on a recent
    numpy, the constructor itself does). *)
Definition rectangular (scores_matrix : list (list Z)) : bool :=
  match scores_matrix with
  | [] => false
  | row :: rows => forallb (fun r => (length r =? length row)%nat) rows
  end.

(** Column [j] of [np.pad(scores_array, ...)[:, :7]]: the zero padding
    is the default of [nth]. *)
Definition column (scores_matrix : list (list Z)) (j : nat) : list Z :=
  map (fun row => nth j row 0) scores_matrix.

Definition Qsum (l : list Q) : Q := fold_right Qplus 0%Q l.

Definition np_mean (xs : list Z) : Q :=
  (inject_Z (fold_right Z.add 0%Z xs) / inject_Z (Z.of_nat (length xs)))%Q.

(** [np.var]: the mean of the squared deviations from the mean, in
    exact arithmetic. *)
Definition np_var (xs : list Z) : Q :=
  (Qsum (map (fun x => (inject_Z x - np_mean xs) * (inject_Z x - np_mean xs)) xs)
   / inject_Z (Z.of_nat (length xs)))%Q.

(** [np.var(scores_array[:, :7], axis=0)] *)
Definition column_variances (scores_matrix : list (list Z)) : list Q :=
  map (fun j => np_var (column scores_matrix j)) (seq 0 7).

(** [np.argmax]: scanning from the left, the index changes only on a
    strictly larger entry. *)
Fixpoint argmax_from (l : list Q) (i best_i : nat) (best : Q) : nat :=
  match l with
  | [] => best_i
  | x :: l' =>
      if Qle_bool x best then argmax_from l' (S i) best_i best
      else argmax_from l' (S i) i x
  end.

Definition np_argmax (l : list Q) : nat :=
  match l with
  | [] => 0%nat
  | x :: l' => argmax_from l' 1 0 x
  end.

(** [m] sits at index [r] of [l], nothing in [l] is larger, and
    everything before [r] is strictly smaller. *)
Definition first_maximum (l : list Q) (r : nat) (m : Q) : Prop :=
  l !! r = Some m
  /\ (forall j x, l !! j = Some x -> (x <= m)%Q)
  /\ (forall j x, (j < r)%nat -> l !! j = Some x -> (x < m)%Q).

(** [sel] is the first index that achieves the maximum among the
    eligible positions of [v]. *)
Definition first_max_among (eligible : nat -> Prop) (v : list Q) (sel : nat) : Prop :=
  eligible sel
  /\ exists m, v !! sel = Some m
     /\ forall j x, eligible j -> v !! j = Some x ->
          (x <= m)%Q /\ ((j < sel)%nat -> (x < m)%Q).

Definition sentinel : Q := (-1)%Q.

(** The loop [for idx in used_scale_indices: if idx < len(variances):
    variances[idx] = -1.0]. *)
Definition exclude_used (used : list nat) (variances : list Q) : list Q :=
  fold_left
    (fun v idx => if (idx <? length v)%nat then <[idx := sentinel]> v else v)
    used variances.

(** Sections 3 and 4 of the selection up to the choice of
    [max_var_index]: the index, and [used_scale_indices] as the choice
    leaves it (emptied when every variance was at the sentinel). *)
Definition argmax_with_reset (variances : list Q) (used : list nat) : nat * list nat :=
  let masked := exclude_used used variances in
  let max_var_index := np_argmax masked in
  if Qeq_bool (nth max_var_index masked 0%Q) sentinel then (np_argmax variances, [])
  else (max_var_index, used).

(** The whole selection: [max_var_index] and [used_scale_indices] after
    [used_scale_indices.append(max_var_index)]. *)
Definition select_scale (variances : list Q) (used : list nat) : nat * list nat :=
  let '(max_var_index, used) := argmax_with_reset variances used in
  (max_var_index, used ++ [max_var_index]).


Definition is_str (v : json) : bool :=
  match v with
  | JStr _ => true
  | _ => false
  end.

(** [sep.join(l)] raises on an item that is not a [str]. *)
Definition joinable (l : list json) : bool := forallb is_str l.

(** The [except] branch of the question generation. *)
Definition fallback_question (s : session) : session :=
  let s := set_current_question (JStr "映画のストーリーについて、どちらを好みますか？") s in
  let s := set_current_options
             [("a", JStr "考察が必要な複雑なストーリー");
              ("b", JStr "わかりやすくてスッキリするストーリー")] s in
  set_current_scale "General" s.

Definition generation_error : event := EError "質問生成エラー".

(** The [try] block that generates a question. *)
Definition generate_question (s : session) (c : chain) : run :=
  let scores_matrix := map scores (quantitative_analysis s) in
  if negb (rectangular scores_matrix) then
    rerun (fallback_question s) [generation_error]
  else
    let '(max_var_index, used) :=
      argmax_with_reset (column_variances scores_matrix) (used_scale_indices s) in
    let s := set_used_scale_indices used s in
    match nth_error scale_definitions max_var_index with
    | None => rerun (fallback_question s) [generation_error]
    | Some selected_scale =>
        let s := set_used_scale_indices (used ++ [max_var_index]) s in
        if negb (joinable (questions_asked s)) then
          rerun (fallback_question s) [generation_error]
        else
          let '(tr, r) := safe_llm_call c in
          let s := set_api_call_count (api_call_count s + invocations tr) s in
          match r with
          | Returned (JDict result) =>
              let s := set_current_question
                         (dict_get result "question" (JStr "映画の好みについて")) s in
              let s := set_current_options
                         [("a", dict_get result "option_a" (JStr "前者"));
                          ("b", dict_get result "option_b" (JStr "後者"))] s in
              rerun (set_current_scale (technical selected_scale) s) tr
          | _ => rerun (fallback_question s) (tr ++ [generation_error])
          end
    end.

Definition step4_generate_question (s : session) (clicked : option button)
    (c : chain) : run :=
  let remaining_profiles := length (user_profiles s) in
  if (remaining_profiles <=? 1)%nat then
    let tr := [ESuccess "最終ユーザペルソナが確定しました"] in
    if pressed clicked BtnRecommend then
      rerun (set_step 6 (set_final_profile (head (user_profiles s)) s)) tr
    else finish s tr
  else
    match quantitative_analysis s with
    | [] =>
        let tr := [EError "データ不足です。ステップ3に戻ってください"] in
        if pressed clicked BtnBackToStep3 then rerun (set_step 3 s) tr else finish s tr
    | _ :: _ =>
        if (truthy (current_question s) && negb (String.eqb (current_scale s) ""))%bool then
          match clicked with
          | Some (BtnSubmit answer_selection) =>
              let s := set_questions_asked (questions_asked s ++ [current_question s]) s in
              let s := set_answers_given (answers_given s ++ [answer_selection]) s in
              let s := set_current_question (JStr "") s in
              let s := set_current_scale "" s in
              let s := set_current_options [] s in
              let s := set_elimination_completed false s in
              rerun (set_step 5 s) [ESuccess "送信しました"; ESleep 500]
          | Some BtnChange =>
              rerun (set_current_scale "" (set_current_question (JStr "") s)) []
          | _ => finish s []
          end
        else generate_question s c
    end.

(** ** Step 5: elimination *)

(** [l[-1] if l else default] *)
Definition last_or {A} (l : list A) (default : A) : A := List.last l default.

(** The [except] branch: drop the first persona. *)
Definition eliminate_first (s : session) (tr : list event) : run :=
  let tr := tr ++ [EError "ユーザペルソナ淘汰中にエラー"] in
  match user_profiles s with
  | eliminated_profile :: rest =>
      let s := set_user_profiles rest s in
      let s := set_elimination_history
                 (elimination_history s ++
                  [{| eliminated_id := profile_id eliminated_profile;
                      reason := JStr "システムエラー";
                      question := JStr "N/A";
                      answer := "N/A" |}]) s in
      rerun (set_elimination_completed true s) tr
  | [] => finish s tr
  end.

(** The [try] block of the elimination. *)
Definition eliminate (s : session) (c : chain) : run :=
  let '(tr, r) := safe_llm_call c in
  let s := set_api_call_count (api_call_count s + invocations tr) s in
  match r with
  | Returned (JDict result) =>
      let eliminated_id := dict_get result "eliminated_id" (JInt 1) in
      let reason := dict_get result "reason" (JStr "ユーザーの回答履歴と一致しない") in
      let eliminated_id :=
        match py_int eliminated_id with
        | Some n => n
        | None => 1
        end in
      let last_q := last_or (questions_asked s) (JStr "N/A") in
      let last_a := last_or (answers_given s) "N/A" in
      let s := set_elimination_history
                 (elimination_history s ++
                  [{| eliminated_id := eliminated_id; reason := reason;
                      question := last_q; answer := last_a |}]) s in
      let new_profiles :=
        List.filter (fun p => negb (profile_id p =? eliminated_id)%Z) (user_profiles s) in
      let new_analysis :=
        List.filter (fun a => negb (analysis_profile_id a =? eliminated_id)%Z)
          (quantitative_analysis s) in
      let s := set_user_profiles new_profiles s in
      let s := set_quantitative_analysis new_analysis s in
      rerun (set_elimination_completed true s) tr
  | _ => eliminate_first s tr
  end.

(** The id the [try] block settles on for an object [result]. *)
Definition chosen_id (result : list (string * json)) : Z :=
  match py_int (dict_get result "eliminated_id" (JInt 1)) with
  | Some n => n
  | None => 1
  end.

Definition step5_eliminate_profile (s : session) (clicked : option button)
    (c : chain) : run :=
  let remaining_profiles := length (user_profiles s) in
  if (remaining_profiles <=? 1)%nat then
    let s := set_final_profile (head (user_profiles s)) s in
    let tr := [ESuccess "最終ユーザペルソナが確定しました"] in
    if pressed clicked BtnRecommend then rerun (set_step 6 s) tr else finish s tr
  else if negb (elimination_completed s) then eliminate s c
  else
    let tr := [ESuccess "ユーザペルソナを淘汰しました"] in
    if (1 <? length (user_profiles s))%nat then
      if pressed clicked BtnNextQuestion then rerun (set_step 4 s) tr else finish s tr
    else
      match user_profiles s with
      | [] => crash s tr
      | p :: _ =>
          let s := set_final_profile (Some p) s in
          if pressed clicked BtnRecommend then rerun (set_step 6 s) tr else finish s tr
      end.

(** ** Step 6: recommendation *)

(** [display_recommendation] raises exactly when [rec] has no [get] or
    one of its two [join]s meets an item that is not a [str]; this
    happens before any button is rendered. *)
Definition displayable (rec : json) : bool :=
  match rec with
  | JDict d =>
      (match dict_get d "genre" (JStr "未知のジャンル") with
       | JList genre => joinable genre
       | _ => true
       end
       &&
       match dict_get d "main_cast" (JList []) with
       | JList (c :: cast) => joinable (firstn 3 (c :: cast))
       | _ => true
       end)%bool
  | _ => false
  end.

(** [display_recommendation(rec)]; [None] when it raises. *)
Definition display_recommendation (s : session) (rec : json) (clicked : option button)
    (tr : list event) : option run :=
  if displayable rec then
    let tr := tr ++ [EDisplay rec] in
    Some (if pressed clicked BtnFAQ then rerun (set_step 7 s) tr
          else if pressed clicked BtnRegenerate then rerun (set_recommendation JNull s) tr
          else if pressed clicked BtnReport then finish s (tr ++ [EReport])
          else finish s tr)
  else None.

(** The stock recommendation of the [except] branch. *)
Definition default_recommendation : json :=
  JDict
    [("recommended_movie", JStr "ショーシャンクの空に");
     ("year", JStr "1994");
     ("genre", JList [JStr "ドラマ"; JStr "犯罪"]);
     ("director", JStr "フランク・ダラボン");
     ("main_cast", JList [JStr "ティム・ロビンス"; JStr "モーガン・フリーマン"]);
     ("reason", JStr "これは古典的な感動的な映画で、刑務所の中で希望と尊厳を保ち続ける物語を描いています。映画は人間性の輝きを示し、深い哲学的思考と感情的な力に満ちており、あなたの好む重厚なテーマと一致します。");
     ("match_points",
      JList [JStr "深いテーマ"; JStr "優れた物語構成"; JStr "心を動かす";
             JStr "俳優の優れた演技"]);
     ("streaming_platforms",
      JList [JStr "Netflix"; JStr "Amazon Prime Video"; JStr "Hulu"])].

Definition missing_profile_error : event := EError "最終ユーザペルソナが見つかりません".
Definition recommendation_error : event := EError "推薦生成中にエラー".

(** The [except] branch of the recommendation. *)
Definition recommend_default (s : session) (clicked : option button)
    (tr : list event) : run :=
  let tr := tr ++ [recommendation_error] in
  let s := set_recommendation default_recommendation s in
  match display_recommendation s default_recommendation clicked tr with
  | Some r => r
  | None => crash s tr
  end.

Definition step6_generate_recommendation (s : session) (clicked : option button)
    (c : chain) : run :=
  match final_profile s with
  | None =>
      let tr := [missing_profile_error] in
      if pressed clicked BtnReselect then rerun (set_step 4 s) tr else finish s tr
  | Some _ =>
      if truthy (recommendation s) then
        match display_recommendation s (recommendation s) clicked [] with
        | Some r => r
        | None => crash s []
        end
      else if negb (joinable (questions_asked s)) then recommend_default s clicked []
      else
        let '(tr, r) := safe_llm_call c in
        let s := set_api_call_count (api_call_count s + invocations tr) s in
        match r with
        | Returned result =>
            let s := set_recommendation result s in
            match display_recommendation s result clicked tr with
            | Some r => r
            | None => recommend_default s clicked tr
            end
        | Raised _ => recommend_default s clicked tr
        end
  end.

(** ** The session store and the restart buttons *)

(** [default_states] of [init_session_state]; [now] stands for the
    reading of [datetime.now()]. *)
Definition default_states (now : json) : list (string * json) :=
  [("step", JInt 1);
   ("user_profiles", JList []);
   ("quantitative_analysis", JList []);
   ("liked_movies", JList []);
   ("disliked_movies", JList []);
   ("questions_asked", JList []);
   ("answers_given", JList []);
   ("current_question", JStr "");
   ("current_scale", JStr "");
   ("final_profile", JNull);
   ("recommendation", JNull);
   ("qa_pairs", JList []);
   ("elimination_history", JList []);
   ("start_time", now);
   ("processing", JBool false);
   ("profiles_generated", JBool false);
   ("analysis_completed", JBool false);
   ("step_changed", JBool false);
   ("api_call_count", JInt 0);
   ("last_api_call", JNull);
   ("elimination_completed", JBool false);
   ("used_scale_indices", JList []);
   ("current_options", JDict [])].

(** [if key not in st.session_state: st.session_state[key] = value] *)
Definition set_default (st : gmap string json) (kv : string * json) : gmap string json :=
  match st !! kv.1 with
  | Some _ => st
  | None => <[kv.1 := kv.2]> st
  end.

Definition init_session_state (now : json) (st : gmap string json) : gmap string json :=
  foldl set_default st (default_states now).

(** [list(st.session_state.keys())] *)
Definition session_keys (st : gmap string json) : list string :=
  (map_to_list st).*1.

(** [for key in keys: del st.session_state[key]] *)
Definition delete_keys (keys : list string) (st : gmap string json) : gmap string json :=
  foldl (fun m key => delete key m) st keys.

(** The restart button of the sidebar of [system_a.main], and the one
    of [system_b.main]: every key but the experiment marker goes. *)
Definition main_restart (st : gmap string json) : gmap string json :=
  let keys_to_delete :=
    List.filter (fun k => negb (String.eqb k "experiment_mode")) (session_keys st) in
  delete_keys keys_to_delete st.

(** The restart button at the end of [step7_generate_qa] (and the reset
    button of the invalid-step page): every key goes. *)
Definition step7_restart (st : gmap string json) : gmap string json :=
  delete_keys (session_keys st) st.

(** The top of [app.py], run at the start of every script run. *)
Definition app_bootstrap (st : gmap string json) : gmap string json :=
  match st !! "experiment_mode" with
  | Some _ => st
  | None => <["experiment_mode" := JNull]> st
  end.

(** What a script run shows. *)
Inductive view :=
| ModeSelection              (* the A/B choice of app.py *)
| StepA (current_step : json) (* a page of system A; step 1 is the intake *)
| SystemB
| Blank.                     (* a marker that is neither None, "A" nor "B" *)

(** A script run without a click: the store after the bootstrap (and
    after [init_session_state] under system A), and the page routed to. *)
Definition app_run (now : json) (st : gmap string json) : gmap string json * view :=
  let st := app_bootstrap st in
  match st !! "experiment_mode" with
  | Some JNull | None => (st, ModeSelection)
  | Some (JStr mode) =>
      if String.eqb mode "A" then
        let st := init_session_state now st in
        (st, StepA (default JNull (st !! "step")))
      else if String.eqb mode "B" then (st, SystemB)
      else (st, Blank)
  | Some _ => (st, Blank)
  end.

(** ** Step 2: persona generation *)

(** [d[key] = v] on a dict given by its items: an existing key keeps
    its place, a new key goes to the end. *)
Fixpoint dict_set (d : list (string * json)) (key : string) (v : json)
    : list (string * json) :=
  match d with
  | [] => [(key, v)]
  | (k, x) :: d' =>
      if String.eqb k key then (k, v) :: d' else (k, x) :: dict_set d' key v
  end.

(** [key in d] *)
Definition dict_has (d : list (string * json)) (key : string) : bool :=
  existsb (fun kv => String.eqb (fst kv) key) d.

(** The loop [for i, profile in enumerate(...): profile["profile_id"] =
    i + 1; profiles.append(profile)], entered at index [i]; [None] is
    the [TypeError] of an item that is not an object. *)
Fixpoint number_profiles (i : Z) (items : list json) : option (list json) :=
  match items with
  | [] => Some []
  | JDict profile :: rest =>
      match number_profiles (i + 1) rest with
      | Some profiles => Some (JDict (dict_set profile "profile_id" (JInt (i + 1))) :: profiles)
      | None => None
      end
  | _ :: _ => None
  end.

(** The stock population behind the button of the [except] branch. *)
Definition sample_profiles : list json :=
  [JDict [("profile_id", JInt 1);
          ("basic_info", JStr "25-35歳、男性、テクノロジー業界従事者、大学卒以上");
          ("personality", JStr "論理的思考が強く、複雑なナラティブを好み、論理的厳密さを追求");
          ("values", JStr "映画の思想の深さと物語構造を重視")];
   JDict [("profile_id", JInt 2);
          ("basic_info", JStr "30-40歳、女性、文化教育業界、修士号");
          ("personality", JStr "感情的で繊細、感情表現と人物造形を重視");
          ("values", JStr "映画の感情的な共鳴と芸術的価値を重視")]].

Module Step2.

(** The keys step 2 reads and writes; the personas are the objects the
    oracle returned, as step 2 handles them. *)
Record state := {
  step : Z;
  user_profiles : list json;
  profiles_generated : bool;
  processing : bool;
  analysis_completed : bool
}.

Inductive button :=
| BtnStartScoring      (* 定量的分析を開始 *)
| BtnRegenerate        (* ペルソナ再生成 *)
| BtnGenerate          (* ユーザペルソナ生成 *)
| BtnSample.           (* サンプルデータで続行 *)

Definition button_eqb (a b : button) : bool :=
  match a, b with
  | BtnStartScoring, BtnStartScoring
  | BtnRegenerate, BtnRegenerate
  | BtnGenerate, BtnGenerate
  | BtnSample, BtnSample => true
  | _, _ => false
  end.

Definition pressed (clicked : option button) (b : button) : bool :=
  match clicked with
  | Some c => button_eqb c b
  | None => false
  end.

Record run := {
  run_state : state;
  run_trace : list event;
  run_ending : ending
}.

(** The expander title reads [profile['profile_id']]: it needs an
    object with that key. *)
Definition renderable (profile : json) : bool :=
  match profile with
  | JDict d => dict_has d "profile_id"
  | _ => false
  end.

(** The [except] branch of the generation. *)
Definition generation_failed (s : state) (clicked : option button) (tr : list event)
    : run :=
  let tr := tr ++ [EError "ユーザペルソナ生成中にエラー"] in
  let s := {| step := step s; user_profiles := user_profiles s;
              profiles_generated := profiles_generated s; processing := false;
              analysis_completed := analysis_completed s |} in
  if pressed clicked BtnSample then
    {| run_state := {| step := step s; user_profiles := sample_profiles;
                       profiles_generated := true; processing := false;
                       analysis_completed := analysis_completed s |};
       run_trace := tr; run_ending := Rerun |}
  else {| run_state := s; run_trace := tr; run_ending := Finished |}.

Definition step2_generate_profiles (s : state) (clicked : option button) (c : chain)
    : run :=
  let shown :=
    (profiles_generated s
     && match user_profiles s with [] => false | _ => true end)%bool in
  if shown then
    let tr := [ESuccess "ユーザペルソナ生成完了"] in
    if negb (forallb renderable (user_profiles s)) then
      {| run_state := s; run_trace := tr; run_ending := Crashed |}
    else if pressed clicked BtnStartScoring then
      {| run_state := {| step := 3; user_profiles := user_profiles s;
                         profiles_generated := profiles_generated s;
                         processing := processing s; analysis_completed := false |};
         run_trace := tr; run_ending := Rerun |}
    else if pressed clicked BtnRegenerate then
      {| run_state := {| step := step s; user_profiles := [];
                         profiles_generated := false; processing := false;
                         analysis_completed := analysis_completed s |};
         run_trace := tr; run_ending := Rerun |}
    else {| run_state := s; run_trace := tr; run_ending := Finished |}
  else if (negb (processing s) && pressed clicked BtnGenerate)%bool then
    {| run_state := {| step := step s; user_profiles := user_profiles s;
                       profiles_generated := profiles_generated s; processing := true;
                       analysis_completed := analysis_completed s |};
       run_trace := []; run_ending := Rerun |}
  else if processing s then
    let '(tr, r) := safe_llm_call c in
    match r with
    | Returned (JList result) =>
        match number_profiles 0 (firstn 5 result) with
        | Some profiles =>
            {| run_state := {| step := step s; user_profiles := profiles;
                               profiles_generated := true; processing := false;
                               analysis_completed := analysis_completed s |};
               run_trace := tr ++ [ESuccess "ユーザペルソナを生成しました"];
               run_ending := Rerun |}
        | None => generation_failed s clicked tr
        end
    | Returned _ =>
        {| run_state := {| step := step s; user_profiles := user_profiles s;
                           profiles_generated := profiles_generated s;
                           processing := false;
                           analysis_completed := analysis_completed s |};
           run_trace := tr ++ [EError "ユーザペルソナ生成時の返却形式が不正です"];
           run_ending := Rerun |}
    | Raised _ => generation_failed s clicked tr
    end
  else {| run_state := s; run_trace := []; run_ending := Finished |}.

End Step2.

(** [v] is a JSON object. *)
Definition is_object (v : json) : Prop := exists d, v = JDict d.

(** The condition under which step 2 shows the personas it has. *)
Definition personas_shown (s : Step2.state) : bool :=
  (Step2.profiles_generated s
   && match Step2.user_profiles s with [] => false | _ => true end)%bool.

(** The outcomes of the call that make the generation fail: an
    exception, or a list with something else than an object in its
    first five places. *)
Definition generation_fails (r : llm_result) : Prop :=
  match r with
  | Raised _ => True
  | Returned (JList result) => number_profiles 0 (firstn 5 result) = None
  | Returned _ => False
  end.

(** ** Step 7: follow-up questions *)

(** The stock pairs of the [except] branch. *)
Definition stock_qa_pairs : json :=
  JList
    [JDict [("question", JStr "なぜこの映画を推薦したのですか？");
            ("answer", JStr "この映画はあなたのユーザペルソナと非常に一致しています。あなたが好む映画のジャンルや価値観が、この映画のテーマやスタイルと高度に一致しています。")];
     JDict [("question", JStr "どこでこの映画を視聴できますか？");
            ("answer", JStr "この映画は主要なストリーミングプラットフォームで視聴できます。例えばNetflix、Amazon Prime Video、Huluなどです。具体的にはお住まいの地域のストリーミングサービスをご確認ください。")];
     JDict [("question", JStr "類似の映画はありますか？");
            ("answer", JStr "あなたの嗜好に基づいて、以下の映画もおすすめします：XXXX、XXXX、XXXX。これらの映画はテーマ、スタイル、または感情的な側面であなたが好きな映画と類似しています。")]].

(** [v[:3]]; [None] for a value that cannot be sliced. *)
Definition slice3 (v : json) : option json :=
  match v with
  | JList l => Some (JList (firstn 3 l))
  | JStr s => Some (JStr (substring 0 3 s))
  | _ => None
  end.

(** What the [try] and [except] of step 7 leave in [qa_pairs]. *)
Definition select_qa_pairs (r : llm_result) : json :=
  match r with
  | Returned (JDict result) =>
      match slice3 (dict_get result "qa_pairs" (JList [])) with
      | Some qa_pairs => qa_pairs
      | None => stock_qa_pairs
      end
  | _ => stock_qa_pairs
  end.

(** The loop that renders the pairs calls [qa.get] on every item. *)
Definition qa_renderable (qa_pairs : json) : bool :=
  match py_iter qa_pairs with
  | Some items => forallb (fun qa => match qa with JDict _ => true | _ => false end) items
  | None => false
  end.

(** One run of step 7 with the back or the report button; the session
    after it, the pairs it stored and the run.  (Its restart button is
    [step7_restart], on the store.) *)
Inductive step7_button :=
| BtnShowReport          (* レポートを表示 *)
| BtnBackToStep6.        (* 推薦に戻る *)

Definition step7_generate_qa (s : session) (clicked : option step7_button) (c : chain)
    : json * run :=
  let '(tr, r) := safe_llm_call c in
  let s := set_api_call_count (api_call_count s + invocations tr) s in
  let qa_pairs := select_qa_pairs r in
  if negb (qa_renderable qa_pairs) then (qa_pairs, crash s tr)
  else
    let tr := tr ++ [ESuccess "推薦プロセスが完了しました"] in
    match clicked with
    | Some BtnShowReport => (qa_pairs, finish s (tr ++ [EReport]))
    | Some BtnBackToStep6 => (qa_pairs, rerun (set_step 6 s) tr)
    | None => (qa_pairs, finish s tr)
    end.

(** ** System B: the multi-agent dialogue *)

Module SystemB.

Record message := {
  role : string;
  content : string;
  agent : option string
}.

(** The keys of [st.session_state] that [system_b.main] uses. *)
Record state := {
  turn_count : Z;
  chat_history : list message;
  liked_movie : string;
  disliked_movie : string;
  recommendation : json
}.

(** What [main] installs for the keys that are missing. *)
Definition initial : state :=
  {| turn_count := 0; chat_history := []; liked_movie := ""; disliked_movie := "";
     recommendation := JNull |}.

(** What the user did before this run. *)
Inductive input :=
| NoInput
| SubmitForm (l_mov d_mov : string)   (* the form of turn 0 *)
| ChatInput (user_input : string)     (* st.chat_input *)
| PressRestart.                       (* 最初からやり直す *)

(** The agents are called with [chain.invoke] directly: one outcome per
    agent and run.  The two agents with a string parser return a
    string or raise. *)
Record agents := {
  planner : llm_result;
  ask_guidance : string + string;   (* inl error, inr question *)
  answer_user : string + string;
  recommender : llm_result
}.

Record run := {
  run_state : state;
  run_trace : list event;
  run_ending : ending
}.

Definition assistant (text agent_type : string) : message :=
  {| role := "assistant"; content := text; agent := Some agent_type |}.

Definition user (text : string) : message :=
  {| role := "user"; content := text; agent := None |}.

(** Turn 0: the form. *)
Definition start (s : state) (i : input) (a : agents) : run :=
  match i with
  | SubmitForm l_mov d_mov =>
      if negb (String.eqb l_mov "") then
        let s := {| turn_count := turn_count s; chat_history := chat_history s;
                    liked_movie := l_mov; disliked_movie := d_mov;
                    recommendation := recommendation s |} in
        match ask_guidance a with
        | inl _ => {| run_state := s; run_trace := [EInvoke]; run_ending := Crashed |}
        | inr initial_q =>
            {| run_state :=
                 {| turn_count := 1;
                    chat_history :=
                      chat_history s ++ [assistant initial_q "Respond (Guidance)"];
                    liked_movie := liked_movie s; disliked_movie := disliked_movie s;
                    recommendation := recommendation s |};
               run_trace := [EInvoke]; run_ending := Rerun |}
        end
      else {| run_state := s; run_trace := []; run_ending := Finished |}
  | _ => {| run_state := s; run_trace := []; run_ending := Finished |}
  end.

(** Turns 1 to 4: one exchange. *)
Definition exchange (s : state) (i : input) (a : agents) : run :=
  match i with
  | ChatInput user_input =>
      if negb (String.eqb user_input "") then
        let s := {| turn_count := turn_count s;
                    chat_history := chat_history s ++ [user user_input];
                    liked_movie := liked_movie s; disliked_movie := disliked_movie s;
                    recommendation := recommendation s |} in
        match planner a with
        | Returned (JDict plan) =>
            let action := dict_get plan "action" (JStr "ask_more") in
            let is_answer :=
              match action with
              | JStr x => String.eqb x "answer"
              | _ => false
              end in
            let reply := if is_answer then answer_user a else ask_guidance a in
            let agent_type :=
              if is_answer then "Respond (Answer)" else "Respond (Guidance)" in
            match reply with
            | inl _ =>
                {| run_state := s; run_trace := [EInvoke; EInvoke];
                   run_ending := Crashed |}
            | inr response_content =>
                let turn := turn_count s + 1 in
                let s := {| turn_count := turn;
                            chat_history :=
                              chat_history s ++ [assistant response_content agent_type];
                            liked_movie := liked_movie s;
                            disliked_movie := disliked_movie s;
                            recommendation := recommendation s |} in
                if (5 <=? turn)%Z then
                  {| run_state := s; run_trace := [EInvoke; EInvoke; ESleep 1000];
                     run_ending := Rerun |}
                else {| run_state := s; run_trace := [EInvoke; EInvoke];
                        run_ending := Finished |}
            end
        | _ => {| run_state := s; run_trace := [EInvoke]; run_ending := Crashed |}
        end
      else {| run_state := s; run_trace := []; run_ending := Finished |}
  | _ => {| run_state := s; run_trace := []; run_ending := Finished |}
  end.

(** From turn 5 on: the recommendation. *)
Definition recommend (s : state) (i : input) (a : agents) : run :=
  let generated :=
    if truthy (recommendation s) then Some (s, [])
    else
      match recommender a with
      | Returned rec_result =>
          Some ({| turn_count := turn_count s; chat_history := chat_history s;
                   liked_movie := liked_movie s; disliked_movie := disliked_movie s;
                   recommendation := rec_result |}, [EInvoke])
      | Raised _ => None
      end in
  match generated with
  | None => {| run_state := s; run_trace := [EInvoke]; run_ending := Crashed |}
  | Some (s, tr) =>
      let rec := recommendation s in
      if truthy rec then
        match rec with
        | JDict _ =>
            let tr := tr ++ [EDisplay rec] in
            match i with
            | PressRestart =>
                {| run_state := initial; run_trace := tr; run_ending := Rerun |}
            | _ => {| run_state := s; run_trace := tr; run_ending := Finished |}
            end
        | _ => {| run_state := s; run_trace := tr; run_ending := Crashed |}
        end
      else {| run_state := s; run_trace := tr; run_ending := Finished |}
  end.

(** [system_b.main]: the page by [turn_count]. *)
Definition main (s : state) (i : input) (a : agents) : run :=
  if (turn_count s =? 0)%Z then start s i a
  else if ((1 <=? turn_count s) && (turn_count s <? 5))%bool%Z then exchange s i a
  else if (5 <=? turn_count s)%Z then recommend s i a
  else {| run_state := s; run_trace := []; run_ending := Finished |}.

(** A session: the runs in order, each with its input and its agents. *)
Fixpoint play (s : state) (script : list (input * agents)) : state :=
  match script with
  | [] => s
  | (i, a) :: script' => play (run_state (main s i a)) script'
  end.

(** No run of the script ends with an exception. *)
Fixpoint smooth (s : state) (script : list (input * agents)) : bool :=
  match script with
  | [] => true
  | (i, a) :: script' =>
      match run_ending (main s i a) with
      | Crashed => false
      | _ => smooth (run_state (main s i a)) script'
      end
  end.

(** The dialogue so far is well formed: an opening question, then the
    user's messages and the replies in turn. *)
Fixpoint alternating (expect_assistant : bool) (h : list message) : bool :=
  match h with
  | [] => true
  | m :: h' =>
      (String.eqb (role m) (if expect_assistant then "assistant" else "user")
       && alternating (negb expect_assistant) h')%bool
  end.

End SystemB.

(** The shape of a dialogue of system B at turn [t]: the opening
    question and [t - 1] exchanges (nothing at turn 0), assistant and
    user taking turns. *)
Definition well_formed (s : SystemB.state) : Prop :=
  0 <= SystemB.turn_count s <= 5
  /\ length (SystemB.chat_history s) = Z.to_nat (2 * SystemB.turn_count s - 1)
  /\ SystemB.alternating true (SystemB.chat_history s) = true.

(** Two score vectors differ on dimension [j]: a question on it can
    tell personas apart. *)
Definition separates (scores_matrix : list (list Z)) (j : nat) : Prop :=
  exists row row', row ∈ scores_matrix /\ row' ∈ scores_matrix
                   /\ nth j row 0 <> nth j row' 0.

(** ** Measures on traces and on sequences of selections *)

(** The two-second pauses of a trace: the backoffs before a retry. *)
Definition backoffs (tr : list event) : Z :=
  Z.of_nat (length (List.filter
                      (fun e => match e with ESleep 2000 => true | _ => false end) tr)).

(** The used indices after one selection call per variance vector of
    [rounds], in order (the variances change from round to round as
    personas go). *)
Fixpoint ask_rounds (rounds : list (list Q)) (used : list nat) : list nat :=
  match rounds with
  | [] => used
  | variances :: rounds' => ask_rounds rounds' (select_scale variances used).2
  end.

(** ** The fallback of the elimination, as the specification words it *)


(** ** Sample sessions *)

Definition sample_persona (n : Z) : persona :=
  {| profile_id := n; basic_info := JStr "info"; personality := JStr "calm";
     values := JStr "story" |}.

Definition sample_analysis (n : Z) (row : list Z) : analysis :=
  {| analysis_profile_id := n; scores := row;
     explanations := replicate 7 (JStr "because") |}.

(** Three scored personas, one question answered, elimination pending. *)
Definition three_personas : session :=
  let s := set_user_profiles (map sample_persona [1; 2; 3]) initial_session in
  let s := set_quantitative_analysis
             [sample_analysis 1 [1; 5; 5; 2; 5; 5; 9];
              sample_analysis 2 [2; 5; 5; 8; 5; 5; 9];
              sample_analysis 3 [3; 5; 5; 5; 5; 5; 9]] s in
  let s := set_questions_asked [JStr "quiet or loud?"] s in
  let s := set_answers_given ["A"] s in
  set_step 5 s.

(** The same session one round later, persona 1 gone. *)
Definition two_personas : session :=
  let s := set_user_profiles (map sample_persona [2; 3]) three_personas in
  set_quantitative_analysis
    [sample_analysis 2 [2; 5; 5; 8; 5; 5; 9];
     sample_analysis 3 [3; 5; 5; 5; 5; 5; 9]] s.

(** Oracles: one that answers with a given object at the first
    attempt, one whose every attempt fails. *)
Definition answers (v : json) : chain := fun _ => Yields v.
Definition unavailable : chain := fun _ => Fails "timeout".

(** Agents of system B that all answer, and agents whose planner is
    down. *)
Definition cooperative : SystemB.agents :=
  {| SystemB.planner := Returned (JDict [("action", JStr "ask_more")]);
     SystemB.ask_guidance := inr "Which do you prefer?";
     SystemB.answer_user := inr "It is from 1979.";
     SystemB.recommender := Returned (JDict [("movie_title", JStr "Alien")]) |}.

Definition planner_down : SystemB.agents :=
  {| SystemB.planner := Raised "timeout";
     SystemB.ask_guidance := inr "Which do you prefer?";
     SystemB.answer_user := inr "It is from 1979.";
     SystemB.recommender := Returned (JDict [("movie_title", JStr "Alien")]) |}.

(** The form, then four messages of the user. *)
Definition full_dialogue : list (SystemB.input * SystemB.agents) :=
  (SystemB.SubmitForm "Alien" "", cooperative)
  :: replicate 4 (SystemB.ChatInput "the first one", cooperative).

(** * Properties *)

(** ** The builtins on sample values *)

Example py_int_abc : py_int (JStr "abc") = None.
Proof. reflexivity. Qed.

Example py_int_padded : py_int (JStr " -12 ") = Some (-12).
Proof. reflexivity. Qed.

Example py_int_float : py_int (JFloat (FFinite (-7 # 2))) = Some (-3).
Proof. reflexivity. Qed.

Example re_split_sample : re_split "a,b
c," = ["a"; "b"; "c"; ""].
Proof. reflexivity. Qed.

Example strip_sample : strip "  Star  Wars 	" = "Star  Wars".
Proof. reflexivity. Qed.

(** ** Oracle gateway: bounded retries *)

(** Counting the [EInvoke] events of an explicit trace. *)
Ltac count_invocations :=
  unfold invocations in *; cbn [retry_loop fst snd List.filter length app] in *; lia.

Section Gateway.

Variable c : chain.

Lemma retry_loop_invocations (max_retries remaining : nat) :
  invocations (fst (retry_loop c max_retries remaining)) <= Z.of_nat remaining.
Proof.
  induction remaining as [|r IH]; [count_invocations|].
  cbn [retry_loop].
  destruct (c (max_retries - S r)%nat) as [e|v]; [|count_invocations].
  destruct (max_retries - S r <? max_retries - 1)%nat; [|count_invocations].
  destruct (retry_loop c max_retries r) as [tr res]. count_invocations.
Qed.

(** Never more attempts than [max_retries]. *)
Lemma safe_llm_call_with_bound (max_retries : nat) :
  invocations (fst (safe_llm_call_with c max_retries)) <= Z.of_nat max_retries.
Proof. apply retry_loop_invocations. Qed.

Lemma retry_loop_exhausted (max_retries remaining : nat) :
  (0 < remaining <= max_retries)%nat ->
  (forall k, (k < max_retries)%nat -> exists e, c k = Fails e) ->
  exists e, c (max_retries - 1)%nat = Fails e
            /\ snd (retry_loop c max_retries remaining) = Raised e
            /\ invocations (fst (retry_loop c max_retries remaining))
               = Z.of_nat remaining.
Proof.
  intros Hrem Hfail. induction remaining as [|r IH]; [lia|].
  cbn [retry_loop].
  destruct (Hfail (max_retries - S r)%nat ltac:(lia)) as [e He]. rewrite He.
  destruct (Nat.ltb_spec (max_retries - S r)%nat (max_retries - 1)%nat) as [Hlt|Hge].
  - destruct IH as (e' & Hlast & Hres & Hcount); [lia|].
    destruct (retry_loop c max_retries r) as [tr res].
    exists e'. repeat split; [assumption..|count_invocations].
  - assert (r = 0%nat) by lia. subst r.
    exists e. split; [assumption|]. split; [reflexivity|count_invocations].
Qed.

(** X2.  When every attempt fails the last error is raised, after exactly
    [max_retries] attempts. *)
Lemma safe_llm_call_with_exhausted (max_retries : nat) :
  (0 < max_retries)%nat ->
  (forall k, (k < max_retries)%nat -> exists e, c k = Fails e) ->
  exists e, c (max_retries - 1)%nat = Fails e
            /\ snd (safe_llm_call_with c max_retries) = Raised e
            /\ invocations (fst (safe_llm_call_with c max_retries))
               = Z.of_nat max_retries.
Proof. intros Hpos Hfail. apply retry_loop_exhausted; [lia|assumption]. Qed.

Lemma safe_llm_call_invocations_bounds :
  0 <= invocations (fst (safe_llm_call c)) <= 2.
Proof.
  split; [unfold invocations; lia|].
  apply (safe_llm_call_with_bound 2).
Qed.

End Gateway.

(** C8.  A logical oracle call makes at most two attempts.  A first
    attempt that succeeds ends the call; a first attempt that fails is
    followed by the warning and the fixed two-second pause, and then by
    the second attempt; when the second attempt fails too, its error is
    raised to the caller. *)
Theorem safe_llm_call_retry_policy (c : chain) :
  invocations (fst (safe_llm_call c)) <= 2
  /\ safe_llm_call c =
     match c 0%nat, c 1%nat with
     | Yields v, _ => ([EInvoke; ESleep 500], Returned v)
     | Fails _, Yields v =>
         ([EInvoke; EWarning "API呼び出し失敗、再試行中..."; ESleep 2000;
           EInvoke; ESleep 500], Returned v)
     | Fails _, Fails e =>
         ([EInvoke; EWarning "API呼び出し失敗、再試行中..."; ESleep 2000;
           EInvoke; EError "API呼び出し失敗"], Raised e)
     end.
Proof.
  split; [apply safe_llm_call_invocations_bounds|].
  unfold safe_llm_call, safe_llm_call_with. cbn.
  destruct (c 0%nat), (c 1%nat); reflexivity.
Qed.

(** ** Score vectors: normalisation *)

Lemma coerce_score_range (score : json) : 1 <= coerce_score score <= 10.
Proof. unfold coerce_score. destruct (py_int score); lia. Qed.

Lemma coerce_score_numeric (score : json) (n : Z) :
  py_int score = Some n -> coerce_score score = Z.max 1 (Z.min 10 n).
Proof. unfold coerce_score. intros ->. reflexivity. Qed.

Lemma coerce_score_non_numeric (score : json) :
  py_int score = None -> coerce_score score = 5.
Proof. unfold coerce_score. intros ->. reflexivity. Qed.

Section Padding.

Context {A : Type}.
Variables (target_len : nat) (x : A).

Lemma extend_to_length (l : list A) :
  (target_len <= length (extend_to target_len x l))%nat.
Proof.
  unfold extend_to. destruct (Nat.ltb_spec (length l) target_len); [|lia].
  rewrite length_app, length_replicate. lia.
Qed.

(** Padding then slicing always yields [target_len] entries. *)
Lemma normalized_length (l : list A) :
  length (firstn target_len (extend_to target_len x l)) = target_len.
Proof. rewrite length_take. pose proof (extend_to_length l). lia. Qed.


End Padding.

Lemma fallback_analysis_shape (profile : persona) :
  scores (fallback_analysis profile) = [5; 5; 5; 5; 5; 5; 5]
  /\ length (explanations (fallback_analysis profile)) = 7%nat.
Proof. split; reflexivity. Qed.

Lemma store_analysis_cases (profile : persona) (r : llm_result) :
  store_analysis profile r = fallback_analysis profile
  \/ exists items expls,
       scores (store_analysis profile r)
       = firstn 7 (extend_to 7 5 (map coerce_score items))
       /\ explanations (store_analysis profile r)
          = firstn 7 (extend_to 7 placeholder_explanation expls).
Proof.
  destruct r as [e|result]; [left; reflexivity|].
  unfold store_analysis, normalize_result.
  destruct result; try (left; reflexivity).
  destruct (py_iter _) as [items|]; [|left; reflexivity].
  right. eexists _, _. split; reflexivity.
Qed.

(** The shape of what is stored, for any outcome of the call. *)
Lemma score_vector_shape (profile : persona) (r : llm_result) :
  let a := store_analysis profile r in
  analysis_profile_id a = profile_id profile
  /\ length (scores a) = 7%nat
  /\ length (explanations a) = 7%nat
  /\ Forall (fun score => 1 <= score <= 10) (scores a).
Proof.
  cbv zeta.
  split; [|split; [|split]].
  - destruct r as [e|result]; [reflexivity|]. cbn.
    destruct (normalize_result profile result) as [a|] eqn:Hn; [|reflexivity].
    unfold normalize_result in Hn. destruct result; try discriminate.
    destruct (py_iter _); [|discriminate]. injection Hn as <-. reflexivity.
  - destruct (store_analysis_cases profile r) as [->|(items & expls & Hs & _)];
      [reflexivity|].
    rewrite Hs. apply normalized_length.
  - destruct (store_analysis_cases profile r) as [->|(items & expls & _ & He)];
      [reflexivity|].
    rewrite He. apply normalized_length.
  - destruct (store_analysis_cases profile r) as [->|(items & expls & Hs & _)].
    + cbn. repeat constructor; lia.
    + rewrite Hs. apply Forall_take. unfold extend_to.
      destruct (_ <? _)%nat.
      * apply Forall_app. split.
        -- apply Forall_map, Forall_forall. intros. apply coerce_score_range.
        -- apply Forall_replicate. lia.
      * apply Forall_map, Forall_forall. intros. apply coerce_score_range.
Qed.


Example scores_short_and_odd :
  scores (store_analysis
            {| profile_id := 3; basic_info := JNull; personality := JNull; values := JNull |}
            (Returned (JDict [("scores", JList [JStr "abc"; JInt 15; JInt (-2); JStr "7"])])))
  = [5; 10; 1; 7; 5; 5; 5].
Proof. reflexivity. Qed.

Example scores_too_long :
  scores (store_analysis
            {| profile_id := 3; basic_info := JNull; personality := JNull; values := JNull |}
            (Returned (JDict [("scores", JList (map JInt [1; 2; 3; 4; 5; 6; 7; 8; 9]))])))
  = [1; 2; 3; 4; 5; 6; 7].
Proof. reflexivity. Qed.

Example explanations_padded :
  explanations (store_analysis
            {| profile_id := 3; basic_info := JNull; personality := JNull; values := JNull |}
            (Returned (JDict [("explanations", JList [JStr "x"])])))
  = JStr "x" :: replicate 6 placeholder_explanation.
Proof. reflexivity. Qed.

(** ** Intake *)







Lemma cap_firstn {A} (n : nat) (l : list A) : cap n l = firstn n l.
Proof.
  unfold cap. destruct (Nat.ltb_spec n (length l)); [reflexivity|].
  symmetry. apply firstn_all2. assumption.
Qed.

Lemma cap_length {A} (n : nat) (l : list A) : (length (cap n l) <= n)%nat.
Proof. rewrite cap_firstn, length_take. lia. Qed.




Example dedup_ignores_outer_blanks :
  collect_movies "Inception, Inception ,  Inception" = ["Inception"].
Proof. reflexivity. Qed.

Example dedup_is_case_sensitive :
  collect_movies "Inception,inception,Star Wars,Star  Wars"
  = ["Inception"; "inception"; "Star Wars"; "Star  Wars"].
Proof. reflexivity. Qed.

Lemma step1_blank_input_refused (s : session) (liked_input disliked_input : string) :
  strip liked_input = "" ->
  run_state (step1_input_movies s liked_input disliked_input (Some BtnStartAnalysis)) = s.
Proof.
  intros Hblank. unfold step1_input_movies. cbn [pressed button_eqb].
  rewrite Hblank. reflexivity.
Qed.

Lemma step1_blank_input_refused_witness :
  run_state (step1_input_movies initial_session "  " "Alien" (Some BtnStartAnalysis))
  = initial_session.
Proof. exact (step1_blank_input_refused initial_session "  " "Alien" eq_refl). Defined.

(** C7.  The intake guard looks at the raw text, not at the titles
    collected from it: on the liked text [","] the button moves the
    flow to step 2 with an empty list of liked works. *)
Theorem intake_accepts_separator_only_input (s : session) :
  let r := step1_input_movies s "," "" (Some BtnStartAnalysis) in
  liked_movies (run_state r) = []
  /\ step (run_state r) = 2
  /\ run_ending r = Rerun.
Proof. repeat split. Qed.

(** ** Question selector *)

Section Argmax.

Implicit Types (l pre : list Q) (best m : Q).

Lemma argmax_from_spec l : forall pre best_i best,
  first_maximum pre best_i best ->
  exists m, first_maximum (pre ++ l) (argmax_from l (length pre) best_i best) m.
Proof.
  induction l as [|x l IH]; intros pre best_i best (Hat & Hmax & Hfirst).
  - exists best. rewrite app_nil_r. repeat split; assumption.
  - cbn [argmax_from].
    replace (S (length pre)) with (length (pre ++ [x])) by (rewrite length_app; cbn; lia).
    replace (pre ++ x :: l) with ((pre ++ [x]) ++ l) by (rewrite <- app_assoc; reflexivity).
    assert (Hbi : (best_i < length pre)%nat) by (eapply lookup_lt_Some; eassumption).
    destruct (Qle_bool x best) eqn:Hle.
    + apply Qle_bool_iff in Hle. apply IH. repeat split.
      * rewrite lookup_app_l by assumption. assumption.
      * intros j y Hj. apply lookup_app_Some in Hj as [Hj|[_ Hj]]; [eauto|].
        apply list_lookup_singleton_Some in Hj as [_ <-]. assumption.
      * intros j y Hlt Hj. rewrite lookup_app_l in Hj by lia. eauto.
    + assert (Hlt : (best < x)%Q).
      { apply Qnot_le_lt. intros H. apply Qle_bool_iff in H. congruence. }
      apply IH. repeat split.
      * rewrite lookup_app_r by lia. rewrite Nat.sub_diag. reflexivity.
      * intros j y Hj. apply lookup_app_Some in Hj as [Hj|[_ Hj]].
        -- apply Qlt_le_weak. eapply Qle_lt_trans; [eapply Hmax; eassumption|assumption].
        -- apply list_lookup_singleton_Some in Hj as [_ <-]. apply Qle_refl.
      * intros j y Hj Hy. rewrite lookup_app_l in Hy by assumption.
        eapply Qle_lt_trans; [eapply Hmax; eassumption|assumption].
Qed.

Lemma np_argmax_spec l :
  l <> [] -> exists m, first_maximum l (np_argmax l) m.
Proof.
  destruct l as [|x l]; [congruence|]. intros _.
  apply (argmax_from_spec l [x] 0%nat x). repeat split.
  - intros [|j] y Hj; cbn in Hj; [|discriminate].
    injection Hj as <-. apply Qle_refl.
  - intros j y Hj. lia.
Qed.

Lemma first_maximum_lt l r m : first_maximum l r m -> (r < length l)%nat.
Proof. intros (Hat & _). eapply lookup_lt_Some. eassumption. Qed.



End Argmax.

Section Variances.

Lemma Qsquare_nonneg (x : Q) : (0 <= x * x)%Q.
Proof. destruct x as [n d]. unfold Qle, Qmult. cbn. nia. Qed.

Lemma Qsum_nonneg (l : list Q) : Forall (fun x => (0 <= x)%Q) l -> (0 <= Qsum l)%Q.
Proof.
  induction 1 as [|x l Hx _ IH]; cbn; [apply Qle_refl|].
  replace 0%Q with (0 + 0)%Q by reflexivity. apply Qplus_le_compat; assumption.
Qed.

(** A variance is never negative, so it is above the sentinel. *)
Lemma np_var_nonneg (xs : list Z) : (0 <= np_var xs)%Q.
Proof.
  unfold np_var, Qdiv. apply Qmult_le_0_compat.
  - apply Qsum_nonneg, Forall_map, Forall_forall. intros x _. apply Qsquare_nonneg.
  - apply Qinv_le_0_compat. unfold Qle. cbn. lia.
Qed.

Lemma column_variances_length (scores_matrix : list (list Z)) :
  length (column_variances scores_matrix) = 7%nat.
Proof. reflexivity. Qed.

Lemma column_variances_nonneg (scores_matrix : list (list Z)) :
  Forall (fun x => (0 <= x)%Q) (column_variances scores_matrix).
Proof.
  unfold column_variances. apply Forall_map, Forall_forall.
  intros j _. apply np_var_nonneg.
Qed.

End Variances.

Section Exclusion.

Lemma exclude_used_cons (idx : nat) (used : list nat) (variances : list Q) :
  exclude_used (idx :: used) variances = exclude_used used (<[idx := sentinel]> variances).
Proof.
  unfold exclude_used. cbn [fold_left].
  destruct (Nat.ltb_spec idx (length variances)); [reflexivity|].
  rewrite list_insert_ge by assumption. reflexivity.
Qed.

Lemma exclude_used_length (used : list nat) : forall variances : list Q,
  length (exclude_used used variances) = length variances.
Proof.
  induction used as [|idx used IH]; intros variances; [reflexivity|].
  rewrite exclude_used_cons, IH. apply length_insert.
Qed.

(** After the exclusion loop, the used positions hold the sentinel and
    the other positions hold their variance. *)
Lemma exclude_used_lookup (used : list nat) : forall (variances : list Q) (j : nat),
  exclude_used used variances !! j
  = if decide (j ∈ used) then (fun _ => sentinel) <$> variances !! j
    else variances !! j.
Proof.
  induction used as [|idx used IH]; intros variances j.
  - destruct (decide (j ∈ [])) as [H|_]; [|reflexivity].
    exfalso. eapply not_elem_of_nil, H.
  - rewrite exclude_used_cons, IH.
    destruct (decide (j = idx)) as [->|Hne].
    + destruct (decide (idx ∈ idx :: used)) as [_|Hn]; [|exfalso; apply Hn; left].
      destruct (Nat.lt_ge_cases idx (length variances)) as [Hlt|Hge].
      * rewrite list_lookup_insert_eq by assumption.
        destruct (lookup_lt_is_Some_2 variances idx Hlt) as [y ->].
        destruct (decide _); reflexivity.
      * rewrite list_insert_ge by assumption.
        rewrite (lookup_ge_None_2 variances idx) by assumption.
        destruct (decide _); reflexivity.
    + rewrite list_lookup_insert_ne by congruence.
      destruct (decide (j ∈ used)) as [Hin|Hnin].
      * destruct (decide (j ∈ idx :: used)) as [_|Hn]; [reflexivity|].
        exfalso. apply Hn. right. assumption.
      * destruct (decide (j ∈ idx :: used)) as [Hin|_]; [|reflexivity].
        exfalso. apply elem_of_cons in Hin as [?|?]; contradiction.
Qed.

End Exclusion.

Section Selection.

Variables (variances : list Q) (used : list nat).
Hypothesis variances_length : length variances = 7%nat.
Hypothesis variances_nonneg : Forall (fun x => (0 <= x)%Q) variances.

Let masked := exclude_used used variances.

Lemma masked_first_maximum :
  exists m, first_maximum masked (np_argmax masked) m /\ (np_argmax masked < 7)%nat.
Proof.
  destruct (np_argmax_spec masked) as (m & Hm).
  - intros Hnil. apply (f_equal length) in Hnil.
    unfold masked in Hnil. rewrite exclude_used_length, variances_length in Hnil.
    discriminate.
  - exists m. split; [assumption|].
    apply first_maximum_lt in Hm.
    unfold masked in Hm. rewrite exclude_used_length, variances_length in Hm.
    assumption.
Qed.

Lemma variance_above_sentinel (j : nat) (x : Q) :
  variances !! j = Some x -> (0 <= x)%Q.
Proof.
  intros Hj. rewrite Forall_forall in variances_nonneg.
  apply variances_nonneg. eapply list_elem_of_lookup_2. eassumption.
Qed.

(** While an unused dimension remains, the selected one is unused, it
    is appended to the used ones, and it is the first unused index of
    maximal variance. *)
Lemma select_scale_unused :
  (exists j, (j < 7)%nat /\ j ∉ used) ->
  let sel := (select_scale variances used).1 in
  (sel ∉ used)
  /\ (select_scale variances used).2 = used ++ [sel]
  /\ first_max_among (fun j => j ∉ used) variances sel.
Proof.
  intros (j0 & Hj0 & Hfree). cbv zeta.
  destruct masked_first_maximum as (m & (Hat & Hmax & Hfirst) & Hr).
  destruct (lookup_lt_is_Some_2 variances j0 ltac:(lia)) as [x0 Hx0].
  assert (Hm0 : (0 <= m)%Q).
  { eapply Qle_trans; [eapply variance_above_sentinel, Hx0|].
    apply (Hmax j0). unfold masked. rewrite exclude_used_lookup.
    destruct (decide (j0 ∈ used)); [contradiction|assumption]. }
  assert (Hns : Qeq_bool m sentinel = false).
  { destruct (Qeq_bool m sentinel) eqn:He; [|reflexivity].
    apply Qeq_bool_iff in He. rewrite He in Hm0.
    revert Hm0. unfold Qle, sentinel. cbn. lia. }
  assert (Hsel : select_scale variances used
                 = (np_argmax masked, used ++ [np_argmax masked])).
  { unfold select_scale, argmax_with_reset. fold masked.
    rewrite (nth_lookup_Some _ _ _ _ Hat), Hns. reflexivity. }
  rewrite Hsel. cbn [fst snd].
  assert (Hfresh : np_argmax masked ∉ used).
  { intros Hin. unfold masked in Hat, Hin. rewrite exclude_used_lookup in Hat.
    destruct (decide _); [|contradiction].
    destruct (variances !! _); [|discriminate].
    injection Hat as <-. vm_compute in Hns. discriminate Hns. }
  split; [assumption|]. split; [reflexivity|].
  split; [assumption|]. exists m. split.
  - unfold masked in Hat, Hfresh. rewrite exclude_used_lookup in Hat.
    destruct (decide _); [contradiction|assumption].
  - intros j x Hj Hx.
    assert (Hmj : masked !! j = Some x).
    { unfold masked. rewrite exclude_used_lookup.
      destruct (decide (j ∈ used)); [contradiction|assumption]. }
    split; [eapply Hmax; eassumption|].
    intros Hlt. eapply Hfirst; eassumption.
Qed.

(** Once all 7 dimensions are used, the used ones are forgotten within
    the same call and the choice is made on the variances themselves. *)
Lemma select_scale_exhausted :
  (forall j, (j < 7)%nat -> j ∈ used) ->
  let sel := (select_scale variances used).1 in
  (select_scale variances used).2 = [sel]
  /\ sel = np_argmax variances
  /\ first_max_among (fun _ => True) variances sel.
Proof.
  intros Hall. cbv zeta.
  destruct masked_first_maximum as (m & (Hat & Hmax & Hfirst) & Hr).
  assert (Hm : m = sentinel).
  { unfold masked in Hat, Hr. rewrite exclude_used_lookup in Hat.
    destruct (decide _) as [_|Hn]; [|exfalso; apply Hn, Hall, Hr].
    destruct (variances !! _); [|discriminate].
    injection Hat as <-. reflexivity. }
  assert (Hsel : select_scale variances used
                 = (np_argmax variances, [np_argmax variances])).
  { unfold select_scale, argmax_with_reset. fold masked.
    rewrite (nth_lookup_Some _ _ _ _ Hat), Hm. reflexivity. }
  rewrite Hsel. cbn [fst snd]. split; [reflexivity|]. split; [reflexivity|].
  split; [exact I|].
  destruct (np_argmax_spec variances) as (m' & Hat' & Hmax' & Hfirst').
  { intros Hnil. rewrite Hnil in variances_length. discriminate. }
  exists m'. split; [assumption|].
  intros j x _ Hx. split; [eapply Hmax'; eassumption|].
  intros Hlt. eapply Hfirst'; eassumption.
Qed.


Lemma select_scale_in_range : ((select_scale variances used).1 < 7)%nat.
Proof.
  destruct masked_first_maximum as (m & _ & Hr).
  unfold select_scale, argmax_with_reset. fold masked.
  destruct (Qeq_bool _ _); cbn [fst]; [|assumption].
  destruct (np_argmax_spec variances) as (m' & Hm').
  { intros Hnil. rewrite Hnil in variances_length. discriminate. }
  apply first_maximum_lt in Hm'. rewrite variances_length in Hm'. assumption.
Qed.

End Selection.

Section Determinism.






End Determinism.





Example first_round_all_tie :
  select_scale (column_variances [[5; 5; 5; 5; 5; 5; 5]; [5; 5; 5; 5; 5; 5; 5]]) []
  = (0%nat, [0%nat]).
Proof. reflexivity. Qed.

Example exhausted_resets :
  select_scale (column_variances (map scores (quantitative_analysis three_personas)))
    [3; 0; 1; 2; 4; 5; 6]%nat
  = (3%nat, [3%nat]).
Proof. reflexivity. Qed.

(** ** Elimination *)

Section Elimination.

Variables (s : session) (c : chain).

(** The [try] block on an object: both lists are filtered by the chosen
    id and one record is appended. *)
Lemma eliminate_returned_object (result : list (string * json)) :
  snd (safe_llm_call c) = Returned (JDict result) ->
  let s' := run_state (eliminate s c) in
  user_profiles s'
  = List.filter (fun p => negb (profile_id p =? chosen_id result)%Z) (user_profiles s)
  /\ quantitative_analysis s'
     = List.filter (fun a => negb (analysis_profile_id a =? chosen_id result)%Z)
         (quantitative_analysis s)
  /\ elimination_history s'
     = elimination_history s ++
       [{| eliminated_id := chosen_id result;
           reason := dict_get result "reason" (JStr "ユーザーの回答履歴と一致しない");
           question := last_or (questions_asked s) (JStr "N/A");
           answer := last_or (answers_given s) "N/A" |}]
  /\ elimination_completed s' = true.
Proof.
  intros Hres. cbv zeta. unfold eliminate, chosen_id.
  destruct (safe_llm_call c) as [tr r]. cbn [snd] in Hres. subst r.
  repeat split.
Qed.


End Elimination.

Section RemoveById.

Context {A : Type} (key : A -> Z).

Lemma filter_absent (x : Z) (l : list A) :
  x ∉ map key l -> List.filter (fun p => negb (key p =? x)%Z) l = l.
Proof.
  induction l as [|p l IH]; intros Hx; [reflexivity|]. cbn.
  destruct (Z.eqb_spec (key p) x) as [Heq|Hne]; cbn [negb].
  - exfalso. apply Hx. cbn. rewrite Heq. left.
  - rewrite IH; [reflexivity|]. intros Hin. apply Hx. right. assumption.
Qed.



Lemma map_filter_key (x : Z) (l : list A) :
  map key (List.filter (fun p => negb (key p =? x)%Z) l)
  = List.filter (fun k => negb (k =? x)%Z) (map key l).
Proof.
  induction l as [|p l IH]; [reflexivity|]. cbn.
  destruct (key p =? x)%Z; cbn; rewrite IH; reflexivity.
Qed.

End RemoveById.



(** X20.  On the [try] path the personas and the score vectors stay in
    lockstep. *)
Lemma eliminate_object_lockstep (s : session) (c : chain) (result : list (string * json)) :
  snd (safe_llm_call c) = Returned (JDict result) ->
  map profile_id (user_profiles s)
  = map analysis_profile_id (quantitative_analysis s) ->
  map profile_id (user_profiles (run_state (eliminate s c)))
  = map analysis_profile_id (quantitative_analysis (run_state (eliminate s c))).
Proof.
  intros Hres Hlock.
  destruct (eliminate_returned_object s c result Hres) as (-> & -> & _).
  rewrite !map_filter_key, Hlock. reflexivity.
Qed.

Lemma eliminate_object_lockstep_witness :
  map profile_id
    (user_profiles
       (run_state (eliminate three_personas (answers (JDict [("eliminated_id", JInt 3)])))))
  = map analysis_profile_id
      (quantitative_analysis
         (run_state (eliminate three_personas (answers (JDict [("eliminated_id", JInt 3)]))))).
Proof.
  exact (eliminate_object_lockstep three_personas
           (answers (JDict [("eliminated_id", JInt 3)]))
           [("eliminated_id", JInt 3)] eq_refl eq_refl).
Defined.

(** X21.  With at most one persona left the step only seals the final
    profile: no oracle call, no removal, no record. *)
Lemma step5_guard (s : session) (clicked : option button) (c : chain) :
  (length (user_profiles s) <= 1)%nat ->
  let r := step5_eliminate_profile s clicked c in
  oracle_calls r = 0
  /\ user_profiles (run_state r) = user_profiles s
  /\ quantitative_analysis (run_state r) = quantitative_analysis s
  /\ elimination_history (run_state r) = elimination_history s
  /\ final_profile (run_state r) = head (user_profiles s).
Proof.
  intros Hk. cbv zeta. unfold step5_eliminate_profile.
  destruct (Nat.leb_spec (length (user_profiles s)) 1); [|lia].
  destruct (pressed clicked BtnRecommend); repeat split.
Qed.

Lemma step5_guard_witness :
  oracle_calls
    (step5_eliminate_profile
       (set_user_profiles [sample_persona 2] three_personas) None unavailable) = 0.
Proof.
  refine (proj1 (step5_guard (set_user_profiles [sample_persona 2] three_personas)
                   None unavailable _)).
  cbn. lia.
Defined.

(** An id that no remaining persona carries removes nobody, yet the
    round is recorded as done. *)
Lemma eliminate_absent_id (s : session) (c : chain) (result : list (string * json)) :
  snd (safe_llm_call c) = Returned (JDict result) ->
  chosen_id result ∉ map profile_id (user_profiles s) ->
  user_profiles (run_state (eliminate s c)) = user_profiles s
  /\ elimination_completed (run_state (eliminate s c)) = true.
Proof.
  intros Hres Hout.
  destruct (eliminate_returned_object s c result Hres) as (-> & _ & _ & ->).
  split; [apply filter_absent; assumption|reflexivity].
Qed.

Lemma eliminate_absent_id_witness :
  user_profiles (run_state (eliminate three_personas (answers (JDict [("eliminated_id", JInt 99)]))))
  = user_profiles three_personas.
Proof.
  refine (proj1 (eliminate_absent_id three_personas
                   (answers (JDict [("eliminated_id", JInt 99)]))
                   [("eliminated_id", JInt 99)] eq_refl _)).
  refine (bool_decide_unpack _ _). vm_compute. exact I.
Defined.

(** C1.  With personas 2 and 3 left, an oracle that names persona 1
    (eliminated one round earlier) makes the elimination step remove
    nobody: the population keeps its size 2, while a record for
    persona 1 is appended and the round is marked as completed. *)
Theorem eliminate_unknown_id_removes_nobody :
  let r := step5_eliminate_profile two_personas None
             (answers (JDict [("eliminated_id", JInt 1); ("reason", JStr "least consistent")])) in
  map profile_id (user_profiles (run_state r)) = [2; 3]
  /\ map analysis_profile_id (quantitative_analysis (run_state r)) = [2; 3]
  /\ eliminated_id <$> last (elimination_history (run_state r)) = Some 1
  /\ elimination_completed (run_state r) = true
  /\ oracle_calls r = 1.
Proof. repeat split. Qed.

(** C2.  When both attempts of the oracle call fail, the elimination
    step drops the first persona and leaves the score vectors alone:
    from personas and vectors 1, 2, 3 it goes to personas 2, 3 with
    vectors 1, 2, 3, and hands this state to the next run. *)
Theorem failed_oracle_breaks_lockstep :
  let r := step5_eliminate_profile three_personas None unavailable in
  map profile_id (user_profiles (run_state r)) = [2; 3]
  /\ map analysis_profile_id (quantitative_analysis (run_state r)) = [1; 2; 3]
  /\ elimination_completed (run_state r) = true
  /\ run_ending r = Rerun.
Proof. repeat split. Qed.

(** The mismatch is what the question selector then reads: the variance
    is taken over three vectors while two personas remain. *)
Example selector_reads_stale_vector :
  let s' := run_state (step5_eliminate_profile three_personas None unavailable) in
  length (user_profiles s') = 2%nat
  /\ length (map scores (quantitative_analysis s')) = 3%nat.
Proof. split; reflexivity. Qed.




Example abc_in_first_round_removes_first :
  let r := step5_eliminate_profile three_personas None
             (answers (JDict [("eliminated_id", JStr "abc")])) in
  map profile_id (user_profiles (run_state r)) = [2; 3]
  /\ last (elimination_history (run_state r))
     = Some {| eliminated_id := 1; reason := JStr "ユーザーの回答履歴と一致しない";
               question := JStr "quiet or loud?"; answer := "A" |}.
Proof. split; reflexivity. Qed.

(** ** Restart *)

Section Store.

Implicit Types (st : gmap string json) (k : string).

Lemma delete_keys_lookup (keys : list string) : forall st k,
  delete_keys keys st !! k = if decide (k ∈ keys) then None else st !! k.
Proof.
  unfold delete_keys. induction keys as [|key keys IH]; intros st k; cbn [foldl].
  - destruct (decide (k ∈ [])) as [H|_]; [|reflexivity].
    exfalso. eapply not_elem_of_nil, H.
  - rewrite IH. destruct (decide (k ∈ keys)) as [Hin|Hnin].
    + destruct (decide (k ∈ key :: keys)) as [_|Hn]; [reflexivity|].
      exfalso. apply Hn. right. assumption.
    + destruct (decide (k = key)) as [->|Hne].
      * rewrite lookup_delete_eq.
        destruct (decide (key ∈ key :: keys)) as [_|Hn]; [reflexivity|].
        exfalso. apply Hn. left.
      * rewrite lookup_delete_ne by congruence.
        destruct (decide (k ∈ key :: keys)) as [Hin|_]; [|reflexivity].
        exfalso. apply elem_of_cons in Hin as [?|?]; contradiction.
Qed.

Lemma session_keys_spec st k : k ∈ session_keys st <-> is_Some (st !! k).
Proof.
  unfold session_keys. rewrite list_elem_of_fmap. split.
  - intros ([k' v] & -> & Hin). apply elem_of_map_to_list in Hin. eexists. exact Hin.
  - intros [v Hv]. exists (k, v). split; [reflexivity|].
    apply elem_of_map_to_list. exact Hv.
Qed.

(** The restart of the sidebar keeps the experiment marker as it is
    and removes every other key. *)
Lemma main_restart_lookup st k :
  main_restart st !! k = if decide (k = "experiment_mode") then st !! k else None.
Proof.
  unfold main_restart. rewrite delete_keys_lookup.
  destruct (decide (k = "experiment_mode")) as [->|Hne].
  - destruct (decide _) as [Hin|_]; [|reflexivity].
    apply list_elem_of_In, filter_In in Hin as [_ Hin]. discriminate Hin.
  - destruct (decide _) as [_|Hnin]; [reflexivity|].
    destruct (st !! k) as [v|] eqn:Hk; [|reflexivity].
    exfalso. apply Hnin. apply list_elem_of_In, filter_In. split.
    + apply list_elem_of_In, session_keys_spec. eexists. exact Hk.
    + destruct (String.eqb_spec k "experiment_mode"); [contradiction|reflexivity].
Qed.

(** The restart of step 7 removes every key. *)
Lemma step7_restart_empty st : step7_restart st = ∅.
Proof.
  apply map_eq. intros k. unfold step7_restart.
  rewrite delete_keys_lookup, lookup_empty.
  destruct (decide _) as [_|Hnin]; [reflexivity|].
  destruct (st !! k) as [v|] eqn:Hk; [|reflexivity].
  exfalso. apply Hnin, session_keys_spec. eexists. exact Hk.
Qed.

Lemma init_session_state_lookup (defaults : list (string * json)) : forall st k,
  foldl set_default st defaults !! k
  = match st !! k with
    | Some v => Some v
    | None => (list_to_map defaults : gmap string json) !! k
    end.
Proof.
  induction defaults as [|[key v] defaults IH]; intros st k; cbn [foldl].
  - rewrite list_to_map_nil, lookup_empty. destruct (st !! k); reflexivity.
  - rewrite IH, list_to_map_cons. unfold set_default. cbn [fst snd].
    destruct (decide (k = key)) as [->|Hne].
    + rewrite lookup_insert_eq. destruct (st !! key) as [w|] eqn:Hkey.
      * rewrite Hkey. reflexivity.
      * rewrite lookup_insert_eq. reflexivity.
    + rewrite (lookup_insert_ne _ key k) by congruence.
      destruct (st !! key); [reflexivity|].
      rewrite lookup_insert_ne by congruence. reflexivity.
Qed.

(** X4.  A sidebar restart followed by the next run of system A: the marker
    is the one from before and the flow is at step 1, the intake. *)
Lemma main_restart_returns_to_intake (now : json) st :
  st !! "experiment_mode" = Some (JStr "A") ->
  (app_run now (main_restart st)).1 !! "experiment_mode" = Some (JStr "A")
  /\ (app_run now (main_restart st)).2 = StepA (JInt 1).
Proof.
  intros Hmode. unfold app_run, app_bootstrap.
  assert (Hm : main_restart st !! "experiment_mode" = Some (JStr "A")).
  { rewrite main_restart_lookup. destruct (decide _); [assumption|congruence]. }
  rewrite Hm, Hm. cbn [String.eqb Ascii.eqb Bool.eqb fst snd].
  unfold init_session_state. rewrite !init_session_state_lookup, Hm.
  rewrite main_restart_lookup. split; reflexivity.
Qed.

End Store.

Lemma main_restart_returns_to_intake_witness :
  (app_run JNull
     (main_restart (<["experiment_mode" := JStr "A"]> (<["step" := JInt 7]> ∅)))).2
  = StepA (JInt 1).
Proof.
  refine (proj2 (main_restart_returns_to_intake JNull
                   (<["experiment_mode" := JStr "A"]> (<["step" := JInt 7]> ∅)) _)).
  apply lookup_insert_eq.
Defined.

(** C6.  The restart button at the end of step 7 deletes every key of
    the session, the experiment marker included: for any store, the
    marker is gone afterwards, and the next script run re-creates it as
    [None] and shows the A/B choice instead of the intake. *)
Theorem step7_restart_drops_marker (now : json) (st : gmap string json) :
  step7_restart st !! "experiment_mode" = None
  /\ app_run now (step7_restart st) = ({["experiment_mode" := JNull]}, ModeSelection).
Proof.
  rewrite step7_restart_empty. split; [apply lookup_empty|].
  unfold app_run, app_bootstrap. rewrite lookup_empty, lookup_insert_eq.
  rewrite insert_empty. reflexivity.
Qed.

Example step7_restart_from_system_a :
  (<["experiment_mode" := JStr "A"]> (<["step" := JInt 7]> ∅) : gmap string json)
    !! "experiment_mode" = Some (JStr "A")
  /\ step7_restart (<["experiment_mode" := JStr "A"]> (<["step" := JInt 7]> ∅))
       !! "experiment_mode" = None.
Proof.
  split; [apply lookup_insert_eq|]. rewrite step7_restart_empty. apply lookup_empty.
Qed.

(** ** Recommendation *)

Lemma button_eqb_eq (a b : button) : button_eqb a b = true -> a = b.
Proof.
  destruct a, b; cbn; try discriminate; try reflexivity.
  intros H. apply String.eqb_eq in H. subst. reflexivity.
Qed.

Lemma pressed_eq (clicked : option button) (b : button) :
  pressed clicked b = true -> clicked = Some b.
Proof.
  destruct clicked as [a|]; cbn; [|discriminate].
  intros H. apply button_eqb_eq in H. subst. reflexivity.
Qed.

Section Display.

Variables (s : session) (rec : json) (clicked : option button) (tr : list event).

(** Displaying makes no oracle call and touches the cache only through
    the regenerate button. *)
Lemma display_recommendation_effect (r : run) :
  display_recommendation s rec clicked tr = Some r ->
  run_trace r = tr ++ [EDisplay rec] ++ (if pressed clicked BtnFAQ then []
       else if pressed clicked BtnRegenerate then []
       else if pressed clicked BtnReport then [EReport] else [])
  /\ api_call_count (run_state r) = api_call_count s
  /\ run_ending r <> Crashed
  /\ (recommendation (run_state r) = recommendation s
      \/ clicked = Some BtnRegenerate /\ recommendation (run_state r) = JNull)
  /\ (clicked <> Some BtnRegenerate -> recommendation (run_state r) = recommendation s).
Proof.
  unfold display_recommendation. destruct (displayable rec); [|discriminate].
  intros Hr. injection Hr as <-.
  destruct (pressed clicked BtnFAQ) eqn:Hfaq.
  { apply pressed_eq in Hfaq. subst clicked. cbn.
    repeat split; try discriminate; try (left; reflexivity). }
  destruct (pressed clicked BtnRegenerate) eqn:Hregen.
  { apply pressed_eq in Hregen. subst clicked. cbn.
    repeat split; try discriminate; try (right; split; reflexivity).
    intros H. congruence. }
  destruct (pressed clicked BtnReport) eqn:Hreport; cbn;
    rewrite <- ?app_assoc; repeat split; try discriminate; try (left; reflexivity).
Qed.

End Display.

Lemma invocations_app (tr tr' : list event) :
  invocations (tr ++ tr') = invocations tr + invocations tr'.
Proof.
  unfold invocations. rewrite List.filter_app, length_app. lia.
Qed.

(** Entering step 6 with a cached (truthy) recommendation. *)
Lemma step6_cached (s : session) (clicked : option button) (c : chain) :
  truthy (recommendation s) = true ->
  let r := step6_generate_recommendation s clicked c in
  oracle_calls r = 0
  /\ api_call_count (run_state r) = api_call_count s
  /\ (recommendation (run_state r) = recommendation s
      \/ clicked = Some BtnRegenerate /\ recommendation (run_state r) = JNull)
  /\ (clicked <> Some BtnRegenerate -> recommendation (run_state r) = recommendation s)
  /\ (is_Some (final_profile s) -> displayable (recommendation s) = true ->
      EDisplay (recommendation s) ∈ run_trace r).
Proof.
  intros Hcached. cbv zeta. unfold step6_generate_recommendation.
  destruct (final_profile s) as [p|].
  - rewrite Hcached.
    destruct (display_recommendation s (recommendation s) clicked []) as [r|] eqn:Hd.
    + destruct (display_recommendation_effect _ _ _ _ _ Hd) as (Htr & Hcount & _ & Hrec & Hkeep).
      split.
      { unfold oracle_calls. rewrite Htr. cbn [app].
        destruct (pressed clicked BtnFAQ); [reflexivity|].
        destruct (pressed clicked BtnRegenerate); [reflexivity|].
        destruct (pressed clicked BtnReport); reflexivity. }
      split; [assumption|]. split; [assumption|]. split; [assumption|].
      intros _ _. rewrite Htr. cbn [app]. left.
    + split; [reflexivity|]. split; [reflexivity|]. split; [left; reflexivity|].
      split; [reflexivity|]. intros _ Hdisp.
      unfold display_recommendation in Hd. rewrite Hdisp in Hd. discriminate Hd.
  - split; [destruct (pressed clicked BtnReselect); reflexivity|].
    split; [destruct (pressed clicked BtnReselect); reflexivity|].
    split; [left; destruct (pressed clicked BtnReselect); reflexivity|].
    split; [intros _; destruct (pressed clicked BtnReselect); reflexivity|].
    intros [p Hp]. discriminate Hp.
Qed.

Lemma default_recommendation_displayable :
  displayable default_recommendation = true.
Proof. reflexivity. Qed.

(** A run that has to generate leaves a displayable object in the
    cache, unless the regenerate button empties it in the same run. *)
Lemma step6_generated_is_displayable (s : session) (clicked : option button) (c : chain) :
  is_Some (final_profile s) ->
  truthy (recommendation s) = false ->
  clicked <> Some BtnRegenerate ->
  displayable (recommendation (run_state (step6_generate_recommendation s clicked c)))
  = true.
Proof.
  intros [p Hp] Hfresh Hclick. unfold step6_generate_recommendation.
  rewrite Hp, Hfresh.
  assert (Hdefault : forall s0 tr0,
             displayable (recommendation (run_state (recommend_default s0 clicked tr0)))
             = true).
  { intros s0 tr0. unfold recommend_default.
    destruct (display_recommendation _ _ _ _) as [r|] eqn:Hd; [|reflexivity].
    destruct (display_recommendation_effect _ _ _ _ _ Hd) as (_ & _ & _ & _ & Hkeep).
    rewrite (Hkeep Hclick). reflexivity. }
  destruct (joinable (questions_asked s)); cbn [negb]; [|apply Hdefault].
  destruct (safe_llm_call c) as [tr [e|result]]; [apply Hdefault|].
  destruct (display_recommendation _ result clicked tr) as [r|] eqn:Hd; [|apply Hdefault].
  destruct (display_recommendation_effect _ _ _ _ _ Hd) as (_ & _ & _ & _ & Hkeep).
  rewrite (Hkeep Hclick). cbn [recommendation set_recommendation].
  unfold display_recommendation in Hd. destruct (displayable result); [reflexivity|discriminate].
Qed.

Lemma step6_generated_is_displayable_witness :
  displayable
    (recommendation
       (run_state (step6_generate_recommendation
                     (set_final_profile (Some (sample_persona 2)) two_personas)
                     None unavailable)))
  = true.
Proof.
  refine (step6_generated_is_displayable
            (set_final_profile (Some (sample_persona 2)) two_personas)
            None unavailable _ eq_refl _).
  - eexists. reflexivity.
  - discriminate.
Defined.

(** Two entries in a row: what the first one cached is what the second
    one shows, with no further oracle call. *)
Lemma step6_twice (s : session) (clicked1 clicked2 : option button) (c1 c2 : chain) :
  let s1 := run_state (step6_generate_recommendation s clicked1 c1) in
  let r2 := step6_generate_recommendation s1 clicked2 c2 in
  truthy (recommendation s1) = true ->
  clicked2 <> Some BtnRegenerate ->
  recommendation (run_state r2) = recommendation s1 /\ oracle_calls r2 = 0.
Proof.
  cbv zeta. intros Hcached Hclick.
  destruct (step6_cached _ clicked2 c2 Hcached) as (Hcalls & _ & _ & Hkeep & _).
  split; [apply Hkeep, Hclick|exact Hcalls].
Qed.

Lemma step6_twice_witness :
  recommendation
    (run_state
       (step6_generate_recommendation
          (run_state (step6_generate_recommendation
                        (set_final_profile (Some (sample_persona 2)) two_personas)
                        None unavailable))
          (Some BtnReport) (answers (JDict [("recommended_movie", JStr "Alien")]))))
  = default_recommendation.
Proof.
  refine (proj1 (step6_twice (set_final_profile (Some (sample_persona 2)) two_personas)
                   None (Some BtnReport) unavailable
                   (answers (JDict [("recommended_movie", JStr "Alien")])) eq_refl _)).
  discriminate.
Defined.



Example regenerate_clears_cache :
  recommendation
    (run_state
       (step6_generate_recommendation
          (set_recommendation default_recommendation
             (set_final_profile (Some (sample_persona 2)) two_personas))
          (Some BtnRegenerate) unavailable))
  = JNull.
Proof. reflexivity. Qed.

(** An empty object coming back from the oracle is stored but counts
    as no cache: the next entry asks the oracle again. *)
Example empty_object_is_not_a_cache :
  let s1 := run_state (step6_generate_recommendation
                         (set_final_profile (Some (sample_persona 2)) two_personas)
                         None (answers (JDict []))) in
  recommendation s1 = JDict []
  /\ oracle_calls (step6_generate_recommendation s1 None (answers (JDict []))) = 1.
Proof. split; reflexivity. Qed.

(** ** Empty population *)

(** C10.  With no persona left, steps 4 and 5 call no oracle and do
    not fail; step 4 (on its button) and step 5 set the final profile
    to [None], and the button leads to step 6.  Entered without a final
    profile, step 6 reports the missing final profile and does nothing
    else: no oracle call, the recommendation field as it was (so none
    is produced), no exception; its button leads back to step 4. *)
Theorem empty_population_is_terminal (s : session) (clicked : option button) (c : chain) :
  user_profiles s = [] ->
  let r4 := step4_generate_question s clicked c in
  let r5 := step5_eliminate_profile s clicked c in
  (oracle_calls r4 = 0 /\ run_ending r4 <> Crashed
   /\ (clicked = Some BtnRecommend ->
       final_profile (run_state r4) = None /\ step (run_state r4) = 6))
  /\ (oracle_calls r5 = 0 /\ run_ending r5 <> Crashed
      /\ final_profile (run_state r5) = None
      /\ (clicked = Some BtnRecommend -> step (run_state r5) = 6))
  /\ forall (s6 : session) (clicked' : option button) (c' : chain),
       final_profile s6 = None ->
       let r6 := step6_generate_recommendation s6 clicked' c' in
       run_trace r6 = [missing_profile_error]
       /\ oracle_calls r6 = 0
       /\ recommendation (run_state r6) = recommendation s6
       /\ run_ending r6 <> Crashed
       /\ step (run_state r6) = (if pressed clicked' BtnReselect then 4 else step s6).
Proof.
  intros Hempty. cbv zeta.
  unfold step4_generate_question, step5_eliminate_profile. rewrite Hempty.
  cbn [length Nat.leb head]. split; [|split].
  - destruct (pressed clicked BtnRecommend) eqn:Hp.
    + repeat split. discriminate.
    + split; [reflexivity|]. split; [discriminate|]. intros ->. discriminate Hp.
  - destruct (pressed clicked BtnRecommend) eqn:Hp.
    + repeat split. discriminate.
    + split; [reflexivity|]. split; [discriminate|]. split; [reflexivity|].
      intros ->. discriminate Hp.
  - intros s6 clicked' c' Hnone. unfold step6_generate_recommendation. rewrite Hnone.
    destruct (pressed clicked' BtnReselect); repeat split; discriminate.
Qed.

Lemma empty_population_is_terminal_witness :
  user_profiles initial_session = []
  /\ final_profile (run_state (step5_eliminate_profile initial_session None unavailable))
     = None
  /\ run_trace
       (step6_generate_recommendation
          (run_state (step5_eliminate_profile initial_session None unavailable))
          None unavailable)
     = [missing_profile_error].
Proof.
  split; [reflexivity|].
  pose (H := empty_population_is_terminal initial_session None unavailable eq_refl).
  split.
  - exact (proj1 (proj2 (proj2 (proj1 (proj2 H))))).
  - exact (proj1 (proj2 (proj2 H)
                    (run_state (step5_eliminate_profile initial_session None unavailable))
                    None unavailable eq_refl)).
Defined.

(** ** The population as the steps hand it on *)

(** Scoring stores one normalised vector per persona, in the order of
    the personas and under their ids. *)
Lemma analyse_from_lockstep (profiles : list persona) (chains : nat -> chain) :
  forall idx,
    map analysis_profile_id (snd (analyse_from idx profiles chains))
    = map profile_id profiles
    /\ Forall (fun a => length (scores a) = 7%nat /\ length (explanations a) = 7%nat
                        /\ Forall (fun x => 1 <= x <= 10) (scores a))
         (snd (analyse_from idx profiles chains)).
Proof.
  induction profiles as [|profile rest IH]; intros idx; cbn [analyse_from].
  - split; [reflexivity|constructor].
  - destruct (safe_llm_call (chains idx)) as [tr r].
    destruct (IH (S idx)) as [Hids Hshape].
    destruct (analyse_from (S idx) rest chains) as [tr' all_analysis].
    cbn [snd map] in *.
    destruct (score_vector_shape profile r) as (Hid & Hs & He & Hrange).
    split; [rewrite Hid, Hids; reflexivity|].
    constructor; [repeat split; assumption|assumption].
Qed.

(** A scoring run leaves the personas and the score vectors in
    lockstep. *)
Lemma step3_establishes_lockstep (s : session) (chains : nat -> chain) :
  user_profiles s <> [] ->
  (analysis_completed s && match quantitative_analysis s with [] => false | _ => true end
   = false)%bool ->
  processing s = true ->
  let s' := run_state (step3_quantitative_analysis s None chains) in
  map analysis_profile_id (quantitative_analysis s') = map profile_id (user_profiles s')
  /\ analysis_completed s' = true.
Proof.
  intros Hne Hshown Hproc. cbv zeta. unfold step3_quantitative_analysis.
  destruct (user_profiles s) as [|p ps] eqn:Hps; [congruence|].
  rewrite Hshown, Hproc. cbn [pressed].
  pose proof (analyse_from_lockstep (p :: ps) chains 0) as [Hids _].
  destruct (analyse_from 0 (p :: ps) chains) as [tr all_analysis].
  cbn [snd] in Hids. cbn. rewrite Hps. split; [exact Hids|reflexivity].
Qed.

(** X9.  Scoring stores one vector per persona, in the order of the
    personas and under their ids, each with 7 scores between 1 and 10
    and 7 explanations, whatever the oracle does for each of them. *)
Lemma scoring_stores_one_vector_per_persona (profiles : list persona)
    (chains : nat -> chain) (idx : nat) :
  map analysis_profile_id (snd (analyse_from idx profiles chains))
  = map profile_id profiles
  /\ Forall (fun a => length (scores a) = 7%nat /\ length (explanations a) = 7%nat
                      /\ Forall (fun x => 1 <= x <= 10) (scores a))
       (snd (analyse_from idx profiles chains)).
Proof. apply analyse_from_lockstep. Qed.

(** With at most one persona left, step 4 generates no question. *)
Lemma step4_guard (s : session) (clicked : option button) (c : chain) :
  (length (user_profiles s) <= 1)%nat ->
  let r := step4_generate_question s clicked c in
  oracle_calls r = 0
  /\ used_scale_indices (run_state r) = used_scale_indices s
  /\ (clicked = Some BtnRecommend ->
      step (run_state r) = 6 /\ final_profile (run_state r) = head (user_profiles s)).
Proof.
  intros Hk. cbv zeta. unfold step4_generate_question.
  destruct (Nat.leb_spec (length (user_profiles s)) 1); [|lia].
  destruct (pressed clicked BtnRecommend) eqn:Hp.
  - repeat split.
  - split; [reflexivity|]. split; [reflexivity|]. intros ->. discriminate Hp.
Qed.

(** X23.  Steps 1, 4 and 5 never write the recommendation. *)
Lemma other_steps_keep_recommendation (s : session) (clicked : option button)
    (c : chain) (liked_input disliked_input : string) :
  recommendation (run_state (step1_input_movies s liked_input disliked_input clicked))
  = recommendation s
  /\ recommendation (run_state (step4_generate_question s clicked c)) = recommendation s
  /\ recommendation (run_state (step5_eliminate_profile s clicked c)) = recommendation s.
Proof.
  split; [|split].
  - unfold step1_input_movies.
    destruct (pressed _ _); [|reflexivity]. destruct (negb _); reflexivity.
  - unfold step4_generate_question, generate_question.
    destruct (_ <=? _)%nat; [destruct (pressed _ _); reflexivity|].
    destruct (quantitative_analysis s); [destruct (pressed _ _); reflexivity|].
    destruct (_ && _)%bool.
    + destruct clicked as [[]|]; reflexivity.
    + destruct (negb (rectangular _)); [reflexivity|].
      destruct (argmax_with_reset _ _) as [sel used'].
      destruct (nth_error _ _); [|reflexivity].
      destruct (negb (joinable _)); [reflexivity|].
      destruct (safe_llm_call c) as [tr [e|v]]; [reflexivity|]. destruct v; reflexivity.
  - unfold step5_eliminate_profile, eliminate, eliminate_first.
    destruct (_ <=? _)%nat; [destruct (pressed _ _); reflexivity|].
    destruct (negb _).
    + destruct (safe_llm_call c) as [tr [e|v]].
      * cbn. destruct (user_profiles s); reflexivity.
      * destruct v; try reflexivity; cbn; destruct (user_profiles s); reflexivity.
    + destruct (_ <? _)%nat; [destruct (pressed _ _); reflexivity|].
      destruct (user_profiles s); [reflexivity|]. destruct (pressed _ _); reflexivity.
Qed.

(** ** Oracle gateway: the first success *)

Section FirstSuccess.

Variables (c : chain) (max_retries k : nat) (v : json).
Hypothesis in_budget : (k < max_retries)%nat.
Hypothesis failures_before : forall j, (j < k)%nat -> exists e, c j = Fails e.
Hypothesis success_at : c k = Yields v.

Lemma retry_loop_first_success (d : nat) : forall j0,
  (j0 + d = k)%nat ->
  let r := retry_loop c max_retries (max_retries - j0) in
  snd r = Returned v
  /\ invocations (fst r) = Z.of_nat d + 1
  /\ backoffs (fst r) = Z.of_nat d.
Proof.
  induction d as [|d IH]; intros j0 Hj0; cbv zeta.
  - assert (j0 = k) by lia. subst j0.
    destruct (max_retries - k)%nat as [|r] eqn:Hr; [lia|].
    cbn [retry_loop]. replace (max_retries - S r)%nat with k by lia.
    rewrite success_at. repeat split.
  - destruct (max_retries - j0)%nat as [|r] eqn:Hr; [lia|].
    cbn [retry_loop]. replace (max_retries - S r)%nat with j0 by lia.
    destruct (failures_before j0 ltac:(lia)) as [e He]. rewrite He.
    destruct (Nat.ltb_spec j0 (max_retries - 1)%nat) as [_|Hge]; [|lia].
    specialize (IH (S j0) ltac:(lia)). cbv zeta in IH.
    replace (max_retries - S j0)%nat with r in IH by lia.
    destruct (retry_loop c max_retries r) as [tr res].
    destruct IH as (Hres & Hinv & Hback). cbn [fst snd] in *.
    split; [assumption|].
    unfold invocations, backoffs in *. cbn [List.filter length] in *. lia.
Qed.

(** X1.  When attempt [k] is the first to succeed, its value is returned
    after [k + 1] attempts and [k] backoffs. *)
Lemma safe_llm_call_with_first_success :
  snd (safe_llm_call_with c max_retries) = Returned v
  /\ invocations (fst (safe_llm_call_with c max_retries)) = Z.of_nat k + 1
  /\ backoffs (fst (safe_llm_call_with c max_retries)) = Z.of_nat k.
Proof.
  unfold safe_llm_call_with.
  pose proof (retry_loop_first_success k 0%nat ltac:(lia)) as H. cbv zeta in H.
  rewrite Nat.sub_0_r in H. exact H.
Qed.

End FirstSuccess.

Lemma safe_llm_call_with_first_success_witness :
  snd (safe_llm_call_with
         (fun j => if (j <? 2)%nat then Fails "timeout" else Yields (JInt 7)) 4)
  = Returned (JInt 7)
  /\ invocations
       (fst (safe_llm_call_with
               (fun j => if (j <? 2)%nat then Fails "timeout" else Yields (JInt 7)) 4))
     = 3.
Proof.
  pose (H := safe_llm_call_with_first_success
               (fun j => if (j <? 2)%nat then Fails "timeout" else Yields (JInt 7))
               4 2 (JInt 7) ltac:(lia)).
  refine ((fun H' => conj (proj1 H') (proj1 (proj2 H'))) (H _ eq_refl)).
  intros j Hj. exists "timeout".
  destruct j as [|[|j]]; [reflexivity|reflexivity|lia].
Defined.

Lemma safe_llm_call_with_exhausted_witness :
  exists e, unavailable 2%nat = Fails e
            /\ snd (safe_llm_call_with unavailable 3) = Raised e
            /\ invocations (fst (safe_llm_call_with unavailable 3)) = 3.
Proof.
  refine (safe_llm_call_with_exhausted unavailable 3 _ _); [lia|].
  intros j _. exists "timeout". reflexivity.
Defined.

(** ** The session store: defaults *)

Section Defaults.

Variables (now : json) (st : gmap string json).

Lemma init_session_state_spec (k : string) :
  init_session_state now st !! k
  = match st !! k with
    | Some v => Some v
    | None => (list_to_map (default_states now) : gmap string json) !! k
    end.
Proof. apply init_session_state_lookup. Qed.

(** X3.  [init_session_state] leaves every key that is present as it is,
    gives a value to each of its 23 keys, touches no other key, and a
    second call changes nothing. *)
Lemma init_session_state_fills_gaps_only :
  (forall k v, st !! k = Some v -> init_session_state now st !! k = Some v)
  /\ (forall k, k ∈ (default_states now).*1 -> is_Some (init_session_state now st !! k))
  /\ (forall k, k ∉ (default_states now).*1 -> init_session_state now st !! k = st !! k)
  /\ init_session_state now (init_session_state now st) = init_session_state now st.
Proof.
  split; [|split; [|split]].
  - intros k v Hk. rewrite init_session_state_spec, Hk. reflexivity.
  - intros k Hk. rewrite init_session_state_spec.
    destruct (st !! k); [eexists; reflexivity|].
    destruct (list_to_map (default_states now) !! k) eqn:Hd; [eexists; reflexivity|].
    exfalso. eapply (not_elem_of_list_to_map_2 (M := gmap string)); eassumption.
  - intros k Hk. rewrite init_session_state_spec.
    destruct (st !! k); [reflexivity|].
    apply not_elem_of_list_to_map_1. assumption.
  - apply map_eq. intros k.
    unfold init_session_state at 1. rewrite init_session_state_lookup.
    destruct (init_session_state now st !! k) eqn:Hk; [reflexivity|].
    rewrite init_session_state_spec in Hk.
    destruct (st !! k); [discriminate|]. assumption.
Qed.

End Defaults.

(** ** Intake: what a stored title looks like *)

Section Strip.





End Strip.





(** ** Question selector: the used indices over the rounds *)

Section UsedIndices.

Implicit Types (used : list nat) (variances : list Q).

Lemma unused_or_exhausted used :
  (exists j, (j < 7)%nat /\ j ∉ used) \/ (forall j, (j < 7)%nat -> j ∈ used).
Proof.
  destruct (decide (Forall (fun j => j ∈ used) (seq 0 7))) as [Hall|Hnot].
  - right. intros j Hj. rewrite Forall_forall in Hall. apply Hall, elem_of_seq. lia.
  - left. apply not_Forall_Exists in Hnot; [|intros j; apply _].
    apply Exists_exists in Hnot as (j & Hj & Hout).
    exists j. apply elem_of_seq in Hj. split; [lia|assumption].
Qed.

(** Fewer than 7 distinct used indices leave one unused. *)
Lemma short_used_leaves_one used :
  (length used < 7)%nat -> exists j, (j < 7)%nat /\ j ∉ used.
Proof.
  intros Hlen. destruct (unused_or_exhausted used) as [H|Hall]; [assumption|].
  exfalso.
  assert (Hsub : seq 0 7 ⊆+ used).
  { apply NoDup_submseteq; [apply NoDup_seq|].
    intros j Hj. apply Hall. apply elem_of_seq in Hj. lia. }
  apply submseteq_length in Hsub. cbn in Hsub. lia.
Qed.

(** One selection keeps the used indices distinct and below 7, and
    makes them one longer unless it resets them to the pick alone. *)
Lemma select_scale_keeps_used_distinct variances used :
  length variances = 7%nat ->
  Forall (fun x => (0 <= x)%Q) variances ->
  NoDup used -> Forall (fun j => (j < 7)%nat) used ->
  let used' := (select_scale variances used).2 in
  NoDup used' /\ Forall (fun j => (j < 7)%nat) used'
  /\ ((length used < 7)%nat -> length used' = S (length used)).
Proof.
  intros Hlen Hnonneg Hnd Hbound. cbv zeta.
  pose proof (select_scale_in_range variances used Hlen) as Hsel.
  destruct (unused_or_exhausted used) as [Hfree|Hall].
  - destruct (select_scale_unused variances used Hlen Hnonneg Hfree) as (Hout & -> & _).
    split; [|split].
    + apply NoDup_app. split; [assumption|]. split; [|apply NoDup_singleton].
      intros j Hj Hj'. apply list_elem_of_singleton in Hj'. subst j. contradiction.
    + apply Forall_app. split; [assumption|]. constructor; [assumption|constructor].
    + intros _. rewrite length_app. cbn. lia.
  - destruct (select_scale_exhausted variances used Hlen Hall) as (-> & _).
    split; [apply NoDup_singleton|]. split; [constructor; [assumption|constructor]|].
    intros Hshort. destruct (short_used_leaves_one used Hshort) as (j & Hj & Hout).
    exfalso. apply Hout, Hall, Hj.
Qed.

Lemma ask_rounds_invariant (rounds : list (list Q)) : forall used,
  Forall (fun variances => length variances = 7%nat
                           /\ Forall (fun x => (0 <= x)%Q) variances) rounds ->
  NoDup used -> Forall (fun j => (j < 7)%nat) used ->
  (length used + length rounds <= 7)%nat ->
  NoDup (ask_rounds rounds used)
  /\ Forall (fun j => (j < 7)%nat) (ask_rounds rounds used)
  /\ length (ask_rounds rounds used) = (length used + length rounds)%nat
  /\ used `prefix_of` ask_rounds rounds used.
Proof.
  induction rounds as [|variances rounds IH]; intros used Hrounds Hnd Hbound Hlen.
  - cbn. rewrite Nat.add_0_r. repeat split; [assumption..|reflexivity].
  - apply Forall_cons in Hrounds as [[Hv Hnonneg] Hrounds]. cbn [ask_rounds].
    cbn [length] in Hlen.
    destruct (select_scale_keeps_used_distinct variances used Hv Hnonneg Hnd Hbound)
      as (Hnd' & Hbound' & Hlen').
    specialize (Hlen' ltac:(lia)).
    destruct (IH _ Hrounds Hnd' Hbound' ltac:(lia)) as (H1 & H2 & H3 & H4).
    split; [assumption|]. split; [assumption|]. split; [cbn [length]; lia|].
    etransitivity; [|exact H4].
    destruct (select_scale_unused variances used Hv Hnonneg
                (short_used_leaves_one used ltac:(lia))) as (_ & -> & _).
    apply prefix_app_r. reflexivity.
Qed.

End UsedIndices.

(** X11.  Starting with no dimension used, up to 7 selections in a row,
    whatever the variances of each round, ask pairwise different
    dimensions; 7 selections ask each of the 7 dimensions once. *)
Lemma seven_rounds_ask_every_dimension (rounds : list (list Q)) :
  Forall (fun variances => length variances = 7%nat
                           /\ Forall (fun x => (0 <= x)%Q) variances) rounds ->
  (length rounds <= 7)%nat ->
  NoDup (ask_rounds rounds [])
  /\ length (ask_rounds rounds []) = length rounds
  /\ (length rounds = 7%nat -> ask_rounds rounds [] ≡ₚ seq 0 7).
Proof.
  intros Hrounds Hlen.
  destruct (ask_rounds_invariant rounds [] Hrounds (NoDup_nil_2) (Forall_nil_2 _)
              ltac:(cbn; lia)) as (Hnd & Hbound & Hl & _).
  cbn in Hl. split; [assumption|]. split; [assumption|].
  intros Hseven. apply submseteq_length_Permutation.
  - apply NoDup_submseteq; [assumption|].
    intros j Hj. rewrite Forall_forall in Hbound. apply elem_of_seq.
    specialize (Hbound j Hj). lia.
  - cbn. lia.
Qed.

Lemma seven_rounds_ask_every_dimension_witness :
  ask_rounds (replicate 7 [2 # 3; 0; 6; 1 # 4; 6; 0; 2]%Q) []
  = [2; 4; 6; 0; 3; 1; 5]%nat
  /\ NoDup (ask_rounds (replicate 7 [2 # 3; 0; 6; 1 # 4; 6; 0; 2]%Q) []).
Proof.
  split; [reflexivity|].
  refine (proj1 (seven_rounds_ask_every_dimension
                   (replicate 7 [2 # 3; 0; 6; 1 # 4; 6; 0; 2]%Q) _ _)).
  - repeat (constructor; [split; [reflexivity|repeat constructor; unfold Qle; cbn; lia]|]).
    constructor.
  - cbn. lia.
Defined.

(** ** One logical call, seen from the steps *)

Lemma safe_llm_call_cases (c : chain) :
  (exists v, safe_llm_call c = ([EInvoke; ESleep 500], Returned v))
  \/ (exists v, safe_llm_call c
                = ([EInvoke; EWarning "API呼び出し失敗、再試行中..."; ESleep 2000;
                    EInvoke; ESleep 500], Returned v))
  \/ (exists e, safe_llm_call c
                = ([EInvoke; EWarning "API呼び出し失敗、再試行中..."; ESleep 2000;
                    EInvoke; EError "API呼び出し失敗"], Raised e)).
Proof.
  unfold safe_llm_call, safe_llm_call_with. cbn.
  destruct (c 0%nat) as [e0|v0]; [|left; eexists; reflexivity].
  destruct (c 1%nat) as [e1|v1]; right; [right|left]; eexists; reflexivity.
Qed.

Lemma safe_llm_call_at_least_once (c : chain) :
  1 <= invocations (fst (safe_llm_call c)) <= 2.
Proof.
  destruct (safe_llm_call_cases c) as [[v ->]|[[v ->]|[e ->]]];
    unfold invocations; cbn [fst List.filter length]; lia.
Qed.

(** ** Scoring: the calls it makes *)

(** Scoring [n] personas makes between [n] and [2 n] attempts, one
    logical call per persona. *)
Lemma analyse_from_calls (profiles : list persona) (chains : nat -> chain) :
  forall idx,
    Z.of_nat (length profiles) <= invocations (fst (analyse_from idx profiles chains))
    <= 2 * Z.of_nat (length profiles).
Proof.
  induction profiles as [|profile rest IH]; intros idx; cbn [analyse_from].
  - unfold invocations. cbn. lia.
  - pose proof (safe_llm_call_at_least_once (chains idx)) as Hcall.
    destruct (safe_llm_call (chains idx)) as [tr r].
    specialize (IH (S idx)).
    destruct (analyse_from (S idx) rest chains) as [tr' all_analysis].
    cbn [fst length] in *. rewrite invocations_app. lia.
Qed.

(** X10.  A scoring run counts its attempts in [api_call_count] and leaves
    the personas as they are. *)
Lemma step3_counts_calls (s : session) (clicked : option button) (chains : nat -> chain) :
  let r := step3_quantitative_analysis s clicked chains in
  user_profiles (run_state r) = user_profiles s
  /\ api_call_count (run_state r) = api_call_count s + oracle_calls r
  /\ 0 <= oracle_calls r <= 2 * Z.of_nat (length (user_profiles s)).
Proof.
  cbv zeta. unfold step3_quantitative_analysis, oracle_calls.
  destruct (user_profiles s) as [|p ps] eqn:Hps.
  { destruct (pressed _ _); unfold invocations; cbn; rewrite ?Hps; repeat split; lia. }
  destruct (_ && _)%bool.
  { destruct (pressed clicked BtnNextToDialogue); [unfold invocations; cbn; rewrite ?Hps; repeat split; lia|].
    destruct (pressed clicked BtnReanalyse); [unfold invocations; cbn; rewrite ?Hps; repeat split; lia|].
    destruct (pressed clicked BtnBackToStep2); unfold invocations; cbn; rewrite ?Hps; repeat split; lia. }
  destruct (pressed clicked BtnRunAnalysis); [unfold invocations; cbn; rewrite ?Hps; repeat split; lia|].
  destruct (processing s); [|unfold invocations; cbn; rewrite ?Hps; repeat split; lia].
  pose proof (analyse_from_calls (p :: ps) chains 0) as Hcalls.
  destruct (analyse_from 0 (p :: ps) chains) as [tr all_analysis].
  cbn [fst] in Hcalls. cbn [run_state run_trace rerun user_profiles api_call_count
    set_api_call_count set_quantitative_analysis set_analysis_completed set_processing].
  rewrite invocations_app, Hps.
  replace (invocations [ESleep 1000]) with 0 by reflexivity.
  repeat split; lia.
Qed.

(** ** Elimination: one removal per answer *)

Lemma list_filter_sublist {A} (f : A -> bool) (l : list A) :
  List.filter f l `sublist_of` l.
Proof.
  induction l as [|x l IH]; cbn; [constructor|].
  destruct (f x); [apply sublist_skip|apply sublist_cons]; assumption.
Qed.

(** A pending elimination, whatever the oracle does: exactly one record
    is appended, the round is marked as done, the personas and the
    score vectors that remain are those of before in their order, the
    question history is untouched and one logical call was made. *)
Lemma elimination_round_core (s : session) (clicked : option button) (c : chain) :
  (1 < length (user_profiles s))%nat ->
  elimination_completed s = false ->
  let r := step5_eliminate_profile s clicked c in
  (exists record,
      elimination_history (run_state r) = elimination_history s ++ [record])
  /\ elimination_completed (run_state r) = true
  /\ user_profiles (run_state r) `sublist_of` user_profiles s
  /\ quantitative_analysis (run_state r) `sublist_of` quantitative_analysis s
  /\ questions_asked (run_state r) = questions_asked s
  /\ answers_given (run_state r) = answers_given s
  /\ run_ending r = Rerun
  /\ 1 <= oracle_calls r <= 2.
Proof.
  intros Hk Hpending. cbv zeta. unfold step5_eliminate_profile.
  destruct (Nat.leb_spec (length (user_profiles s)) 1); [lia|].
  rewrite Hpending. cbn [negb]. unfold eliminate, oracle_calls.
  pose proof (safe_llm_call_at_least_once c) as Hcall.
  destruct (safe_llm_call c) as [tr res]. cbn [fst] in Hcall.
  assert (Hfail : let r := eliminate_first
                             (set_api_call_count (api_call_count s + invocations tr) s) tr in
                  (exists record,
                      elimination_history (run_state r) = elimination_history s ++ [record])
                  /\ elimination_completed (run_state r) = true
                  /\ user_profiles (run_state r) `sublist_of` user_profiles s
                  /\ quantitative_analysis (run_state r) `sublist_of` quantitative_analysis s
                  /\ questions_asked (run_state r) = questions_asked s
                  /\ answers_given (run_state r) = answers_given s
                  /\ run_ending r = Rerun
                  /\ 1 <= invocations (run_trace r) <= 2).
  { cbv zeta. unfold eliminate_first. cbn [user_profiles set_api_call_count].
    destruct (user_profiles s) as [|p rest] eqn:Hp; [cbn in Hk; lia|].
    cbn. rewrite ?Hp, invocations_app.
    replace (invocations [EError "ユーザペルソナ淘汰中にエラー"]) with 0 by reflexivity.
    split; [eexists; reflexivity|]. split; [reflexivity|].
    split; [apply sublist_cons; reflexivity|]. split; [reflexivity|].
    repeat split; lia. }
  destruct res as [e|v]; [exact Hfail|].
  destruct v; try exact Hfail.
  cbn. split; [eexists; reflexivity|]. split; [reflexivity|].
  split; [apply list_filter_sublist|]. split; [apply list_filter_sublist|].
  repeat split; lia.
Qed.

(** X17.  An elimination round, for any behaviour of the oracle: one record
    more, the round marked as done, nobody added or reordered among the
    personas and the score vectors, the histories untouched, one logical
    call. *)
Lemma elimination_round_effect (s : session) (clicked : option button) (c : chain) :
  (1 < length (user_profiles s))%nat ->
  elimination_completed s = false ->
  let r := step5_eliminate_profile s clicked c in
  (exists record,
      elimination_history (run_state r) = elimination_history s ++ [record])
  /\ elimination_completed (run_state r) = true
  /\ user_profiles (run_state r) `sublist_of` user_profiles s
  /\ quantitative_analysis (run_state r) `sublist_of` quantitative_analysis s
  /\ questions_asked (run_state r) = questions_asked s
  /\ answers_given (run_state r) = answers_given s
  /\ run_ending r = Rerun
  /\ 1 <= oracle_calls r <= 2.
Proof. apply elimination_round_core. Qed.

Lemma elimination_round_effect_witness :
  elimination_completed
    (run_state (step5_eliminate_profile three_personas None unavailable)) = true.
Proof.
  refine (proj1 (proj2 (elimination_round_effect three_personas None unavailable _ eq_refl))).
  cbn. lia.
Defined.

(** X18.  Once an elimination is done, further runs of step 5 (reruns, the
    result page) call no oracle and remove nothing: one answer costs at
    most one persona. *)
Lemma elimination_happens_once (s : session) (clicked clicked' : option button)
    (c c' : chain) :
  (1 < length (user_profiles s))%nat ->
  elimination_completed s = false ->
  let s1 := run_state (step5_eliminate_profile s clicked c) in
  let r2 := step5_eliminate_profile s1 clicked' c' in
  oracle_calls r2 = 0
  /\ user_profiles (run_state r2) = user_profiles s1
  /\ quantitative_analysis (run_state r2) = quantitative_analysis s1
  /\ elimination_history (run_state r2) = elimination_history s1
  /\ run_ending r2 <> Crashed.
Proof.
  intros Hk Hpending. cbv zeta.
  destruct (elimination_round_core s clicked c Hk Hpending) as (_ & Hdone & _).
  set (s1 := run_state (step5_eliminate_profile s clicked c)) in *.
  unfold step5_eliminate_profile at 1 2 3 4 5.
  destruct (length (user_profiles s1) <=? 1)%nat eqn:Hle.
  - destruct (pressed clicked' BtnRecommend); repeat split; discriminate.
  - rewrite Hdone. cbn [negb].
    apply Nat.leb_gt in Hle. destruct (Nat.ltb_spec 1 (length (user_profiles s1))); [|lia].
    destruct (pressed clicked' BtnNextQuestion); repeat split; discriminate.
Qed.

Lemma elimination_happens_once_witness :
  map profile_id
    (user_profiles
       (run_state
          (step5_eliminate_profile
             (run_state (step5_eliminate_profile three_personas None
                           (answers (JDict [("eliminated_id", JInt 2)]))))
             None (answers (JDict [("eliminated_id", JInt 3)])))))
  = [1; 3].
Proof.
  refine (f_equal (map profile_id)
            (proj1 (proj2 (elimination_happens_once three_personas None None
                             (answers (JDict [("eliminated_id", JInt 2)]))
                             (answers (JDict [("eliminated_id", JInt 3)])) _ eq_refl)))).
  cbn. lia.
Defined.

(** ** The dialogue history across the steps *)

Ltac case_split :=
  match goal with
  | |- context [match ?x with _ => _ end] => destruct x eqn:?
  end.

(** Step 4 either leaves the two histories alone or, on a submitted
    answer, appends the pending question to one and the chosen answer to
    the other. *)
Lemma step4_history (s : session) (clicked : option button) (c : chain) :
  let s' := run_state (step4_generate_question s clicked c) in
  (questions_asked s' = questions_asked s /\ answers_given s' = answers_given s)
  \/ (exists answer_selection,
         clicked = Some (BtnSubmit answer_selection)
         /\ questions_asked s' = questions_asked s ++ [current_question s]
         /\ answers_given s' = answers_given s ++ [answer_selection]
         /\ step s' = 5 /\ elimination_completed s' = false).
Proof.
  cbv zeta. unfold step4_generate_question, generate_question.
  destruct (_ <=? _)%nat; [destruct (pressed _ _); left; split; reflexivity|].
  destruct (quantitative_analysis s); [destruct (pressed _ _); left; split; reflexivity|].
  destruct (_ && _)%bool.
  - destruct clicked as [[]|]; try (left; split; reflexivity).
    right. eexists. repeat split.
  - left. destruct (negb (rectangular _)); [split; reflexivity|].
    destruct (argmax_with_reset _ _) as [sel used'].
    destruct (nth_error _ _); [|split; reflexivity].
    destruct (negb (joinable _)); [split; reflexivity|].
    destruct (safe_llm_call c) as [tr [e|v]]; [split; reflexivity|].
    destruct v; split; reflexivity.
Qed.

Lemma display_keeps_history (s : session) (rec : json) (clicked : option button)
    (tr : list event) (r : run) :
  display_recommendation s rec clicked tr = Some r ->
  questions_asked (run_state r) = questions_asked s
  /\ answers_given (run_state r) = answers_given s.
Proof.
  unfold display_recommendation. destruct (displayable rec); [|discriminate].
  intros H. injection H as <-. repeat case_split; split; reflexivity.
Qed.

(** Steps 1, 3, 5, 6 and 7 never touch the two histories. *)
Lemma other_steps_keep_history (s : session) (clicked : option button) (c : chain)
    (liked_input disliked_input : string) (chains : nat -> chain)
    (clicked7 : option step7_button) :
  let same := fun s' : session =>
                questions_asked s' = questions_asked s
                /\ answers_given s' = answers_given s in
  same (run_state (step1_input_movies s liked_input disliked_input clicked))
  /\ same (run_state (step3_quantitative_analysis s clicked chains))
  /\ same (run_state (step5_eliminate_profile s clicked c))
  /\ same (run_state (step6_generate_recommendation s clicked c))
  /\ same (run_state (snd (step7_generate_qa s clicked7 c))).
Proof.
  cbv zeta. split; [|split; [|split; [|split]]].
  - unfold step1_input_movies. repeat case_split; split; reflexivity.
  - unfold step3_quantitative_analysis.
    destruct (user_profiles s); [destruct (pressed _ _); split; reflexivity|].
    destruct (_ && _)%bool; [repeat case_split; split; reflexivity|].
    destruct (pressed _ _); [split; reflexivity|].
    destruct (processing s); [|split; reflexivity].
    destruct (analyse_from _ _ _); split; reflexivity.
  - unfold step5_eliminate_profile, eliminate, eliminate_first.
    destruct (_ <=? _)%nat; [destruct (pressed _ _); split; reflexivity|].
    destruct (negb _).
    + destruct (safe_llm_call c) as [tr [e|v]].
      * cbn. destruct (user_profiles s); split; reflexivity.
      * destruct v; try (split; reflexivity); cbn; destruct (user_profiles s);
          split; reflexivity.
    + destruct (_ <? _)%nat; [destruct (pressed _ _); split; reflexivity|].
      destruct (user_profiles s); [split; reflexivity|].
      destruct (pressed _ _); split; reflexivity.
  - assert (Hdefault : forall s0 tr0,
               questions_asked (run_state (recommend_default s0 clicked tr0))
               = questions_asked s0
               /\ answers_given (run_state (recommend_default s0 clicked tr0))
                  = answers_given s0).
    { intros s0 tr0. unfold recommend_default.
      destruct (display_recommendation _ _ _ _) as [r|] eqn:Hd; [|split; reflexivity].
      exact (display_keeps_history _ _ _ _ _ Hd). }
    unfold step6_generate_recommendation.
    destruct (final_profile s); [|destruct (pressed _ _); split; reflexivity].
    destruct (truthy _).
    { destruct (display_recommendation _ _ _ _) as [r|] eqn:Hd; [|split; reflexivity].
      exact (display_keeps_history _ _ _ _ _ Hd). }
    destruct (negb (joinable _)); [apply Hdefault|].
    destruct (safe_llm_call c) as [tr [e|v]];
      [exact (Hdefault (set_api_call_count _ s) _)|].
    destruct (display_recommendation _ v clicked tr) as [r|] eqn:Hd.
    + exact (display_keeps_history _ _ _ _ _ Hd).
    + exact (Hdefault (set_recommendation v (set_api_call_count _ s)) _).
  - unfold step7_generate_qa.
    destruct (safe_llm_call c) as [tr r].
    destruct (negb _); [split; reflexivity|].
    destruct clicked7 as [[]|]; split; reflexivity.
Qed.

(** X16.  The record of a round carries the question that was pending and
    the answer that was submitted for it. *)
Lemma round_record_carries_answer (s : session) (answer_selection : string)
    (c0 c : chain) (result : list (string * json)) :
  (1 < length (user_profiles s))%nat ->
  quantitative_analysis s <> [] ->
  truthy (current_question s) = true ->
  current_scale s <> "" ->
  snd (safe_llm_call c) = Returned (JDict result) ->
  let s4 := run_state (step4_generate_question s (Some (BtnSubmit answer_selection)) c0) in
  let s5 := run_state (step5_eliminate_profile s4 None c) in
  step s4 = 5
  /\ last (elimination_history s5)
     = Some {| eliminated_id := chosen_id result;
               reason := dict_get result "reason" (JStr "ユーザーの回答履歴と一致しない");
               question := current_question s;
               answer := answer_selection |}.
Proof.
  intros Hk Hqa Hq Hscale Hres. cbv zeta.
  assert (Hs4 : run_state (step4_generate_question s (Some (BtnSubmit answer_selection)) c0)
                = set_step 5
                    (set_elimination_completed false
                       (set_current_options []
                          (set_current_scale ""
                             (set_current_question (JStr "")
                                (set_answers_given (answers_given s ++ [answer_selection])
                                   (set_questions_asked
                                      (questions_asked s ++ [current_question s]) s))))))).
  { unfold step4_generate_question.
    destruct (Nat.leb_spec (length (user_profiles s)) 1); [lia|].
    destruct (quantitative_analysis s); [congruence|].
    rewrite Hq. destruct (String.eqb_spec (current_scale s) ""); [contradiction|].
    reflexivity. }
  rewrite Hs4. split; [reflexivity|].
  unfold step5_eliminate_profile.
  cbn [user_profiles set_step set_elimination_completed set_current_options
       set_current_scale set_current_question set_answers_given set_questions_asked
       elimination_completed negb].
  destruct (Nat.leb_spec (length (user_profiles s)) 1); [lia|].
  match goal with |- context [eliminate ?s0 c] =>
    destruct (eliminate_returned_object s0 c result Hres) as (_ & _ & -> & _) end.
  rewrite last_snoc. cbn [questions_asked answers_given set_step
    set_elimination_completed set_current_options set_current_scale
    set_current_question set_answers_given set_questions_asked].
  unfold last_or. rewrite !last_last. reflexivity.
Qed.

Lemma round_record_carries_answer_witness :
  last (elimination_history
          (run_state
             (step5_eliminate_profile
                (run_state
                   (step4_generate_question
                      (set_current_scale "General"
                         (set_current_question (JStr "old or new?") three_personas))
                      (Some (BtnSubmit "B")) unavailable))
                None (answers (JDict [("eliminated_id", JInt 3)])))))
  = Some {| eliminated_id := 3; reason := JStr "ユーザーの回答履歴と一致しない";
            question := JStr "old or new?"; answer := "B" |}.
Proof.
  refine (proj2 (round_record_carries_answer
                   (set_current_scale "General"
                      (set_current_question (JStr "old or new?") three_personas))
                   "B" unavailable (answers (JDict [("eliminated_id", JInt 3)]))
                   [("eliminated_id", JInt 3)] _ _ eq_refl _ eq_refl)).
  - cbn. lia.
  - discriminate.
  - discriminate.
Defined.

(** X15.  Every answer in the history has its question: the two histories
    have the same length after any run of steps 1 and 3 to 7 when they
    had before. *)
Lemma histories_stay_aligned (s : session) (clicked : option button) (c : chain)
    (liked_input disliked_input : string) (chains : nat -> chain)
    (clicked7 : option step7_button) :
  length (questions_asked s) = length (answers_given s) ->
  let aligned := fun s' : session =>
                   length (questions_asked s') = length (answers_given s') in
  aligned (run_state (step1_input_movies s liked_input disliked_input clicked))
  /\ aligned (run_state (step3_quantitative_analysis s clicked chains))
  /\ aligned (run_state (step4_generate_question s clicked c))
  /\ aligned (run_state (step5_eliminate_profile s clicked c))
  /\ aligned (run_state (step6_generate_recommendation s clicked c))
  /\ aligned (run_state (snd (step7_generate_qa s clicked7 c))).
Proof.
  intros Hal. cbv zeta.
  destruct (other_steps_keep_history s clicked c liked_input disliked_input chains clicked7)
    as ([-> ->] & [-> ->] & [-> ->] & [-> ->] & [-> ->]).
  destruct (step4_history s clicked c) as [[-> ->]|(a & _ & -> & -> & _)].
  - repeat split; assumption.
  - rewrite !length_app. cbn. repeat split; try assumption. lia.
Qed.

Lemma histories_stay_aligned_witness :
  length (questions_asked
            (run_state (step4_generate_question
                          (set_current_scale "General"
                             (set_current_question (JStr "old or new?") three_personas))
                          (Some (BtnSubmit "B")) unavailable)))
  = length (answers_given
              (run_state (step4_generate_question
                            (set_current_scale "General"
                               (set_current_question (JStr "old or new?") three_personas))
                            (Some (BtnSubmit "B")) unavailable))).
Proof.
  exact (proj1 (proj2 (proj2 (histories_stay_aligned
                                (set_current_scale "General"
                                   (set_current_question (JStr "old or new?")
                                      three_personas))
                                (Some (BtnSubmit "B")) unavailable "" ""
                                (fun _ => unavailable) None eq_refl)))).
Defined.

(** ** Question generation never leaves the page empty *)

Lemma scale_names_not_empty :
  Forall (fun sc => technical sc <> "") scale_definitions.
Proof. repeat constructor; discriminate. Qed.

(** X14.  A generation run (several personas, score vectors there, no
    question pending) always ends in a rerun with a scale name set and
    the personas untouched.  The question it leaves is the stock
    question, or the one of the object the oracle returned (its
    [question], the stock wording when the object has none); so the
    next run shows a question unless the oracle itself gave an empty
    one. *)
Lemma generation_leaves_a_question (s : session) (clicked : option button) (c : chain) :
  (1 < length (user_profiles s))%nat ->
  quantitative_analysis s <> [] ->
  (truthy (current_question s) && negb (String.eqb (current_scale s) ""))%bool = false ->
  let r := step4_generate_question s clicked c in
  let s' := run_state r in
  run_ending r = Rerun
  /\ current_scale s' <> ""
  /\ user_profiles s' = user_profiles s
  /\ quantitative_analysis s' = quantitative_analysis s
  /\ 0 <= oracle_calls r <= 2
  /\ ((current_question s' = JStr "映画のストーリーについて、どちらを好みますか？"
       /\ current_scale s' = "General")
      \/ exists result,
           snd (safe_llm_call c) = Returned (JDict result)
           /\ current_question s' = dict_get result "question" (JStr "映画の好みについて")).
Proof.
  intros Hk Hqa Hnone. cbv zeta. unfold step4_generate_question.
  destruct (Nat.leb_spec (length (user_profiles s)) 1); [lia|].
  destruct (quantitative_analysis s) as [|a0 qa] eqn:Hq; [congruence|].
  rewrite Hnone. unfold generate_question, oracle_calls. rewrite Hq.
  set (m := map scores (a0 :: qa)).
  assert (Hfallback : forall s0 tr0,
             user_profiles s0 = user_profiles s ->
             quantitative_analysis s0 = a0 :: qa ->
             0 <= invocations tr0 <= 2 ->
             let r := rerun (fallback_question s0) tr0 in
             run_ending r = Rerun
             /\ current_scale (run_state r) <> ""
             /\ user_profiles (run_state r) = user_profiles s
             /\ quantitative_analysis (run_state r) = a0 :: qa
             /\ 0 <= invocations (run_trace r) <= 2
             /\ ((current_question (run_state r)
                  = JStr "映画のストーリーについて、どちらを好みますか？"
                  /\ current_scale (run_state r) = "General")
                 \/ exists result,
                      snd (safe_llm_call c) = Returned (JDict result)
                      /\ current_question (run_state r)
                         = dict_get result "question" (JStr "映画の好みについて"))).
  { intros s0 tr0 Hp0 Hq0 Htr0. cbv zeta. cbn.
    split; [reflexivity|]. split; [discriminate|]. split; [assumption|].
    split; [assumption|]. split; [assumption|]. left. split; reflexivity. }
  assert (Hone : 0 <= invocations [generation_error] <= 2) by (unfold invocations; cbn; lia).
  destruct (negb (rectangular m)); [apply Hfallback; [reflexivity|assumption|assumption]|].
  destruct (argmax_with_reset _ _) as [sel used'].
  destruct (nth_error scale_definitions sel) as [sc|] eqn:Hsc;
    [|apply Hfallback; [reflexivity|assumption|assumption]].
  destruct (negb (joinable _)); [apply Hfallback; [reflexivity|assumption|assumption]|].
  pose proof (safe_llm_call_invocations_bounds c) as Hcall.
  destruct (safe_llm_call c) as [tr res]. cbn [fst snd] in *.
  assert (Htr : 0 <= invocations (tr ++ [generation_error]) <= 2).
  { rewrite invocations_app.
    replace (invocations [generation_error]) with 0 by reflexivity. lia. }
  destruct res as [e|v]; [apply Hfallback; [reflexivity|assumption|assumption]|].
  destruct v; try (apply Hfallback; [reflexivity|assumption|assumption]).
  cbn. split; [reflexivity|]. split.
  { pose proof scale_names_not_empty as Hnames. rewrite Forall_forall in Hnames.
    apply Hnames. apply list_elem_of_In. eapply nth_error_In. eassumption. }
  split; [reflexivity|]. split; [assumption|]. split; [assumption|].
  right. eexists. split; reflexivity.
Qed.

Lemma generation_leaves_a_question_witness :
  current_scale
    (run_state (step4_generate_question three_personas None unavailable))
  = "General".
Proof.
  pose (H := generation_leaves_a_question three_personas None unavailable
               ltac:(cbn; lia) ltac:(discriminate) eq_refl).
  destruct (proj2 (proj2 (proj2 (proj2 (proj2 H))))) as [[_ Hscale]|(result & Hres & _)].
  - exact Hscale.
  - discriminate Hres.
Defined.

(** ** A generating run of step 6 always shows a recommendation *)

Section AlwaysRecommends.

Variables (clicked : option button).

Lemma display_succeeds (s : session) (rec : json) (tr : list event) :
  displayable rec = true ->
  exists r, display_recommendation s rec clicked tr = Some r
            /\ run_ending r <> Crashed
            /\ EDisplay rec ∈ run_trace r
            /\ invocations (run_trace r) = invocations tr
            /\ (clicked <> Some BtnRegenerate ->
                recommendation (run_state r) = recommendation s).
Proof.
  intros Hd. unfold display_recommendation. rewrite Hd. eexists. split; [reflexivity|].
  destruct (pressed clicked BtnFAQ) eqn:Hfaq.
  { cbn. split; [discriminate|]. split; [set_solver|].
    split; [rewrite invocations_app; unfold invocations at 2; cbn; lia|]. reflexivity. }
  destruct (pressed clicked BtnRegenerate) eqn:Hregen.
  { apply pressed_eq in Hregen. cbn. split; [discriminate|]. split; [set_solver|].
    split; [rewrite invocations_app; unfold invocations at 2; cbn; lia|]. congruence. }
  destruct (pressed clicked BtnReport); cbn.
  - split; [discriminate|]. split; [set_solver|].
    split; [rewrite !invocations_app; unfold invocations at 2 3; cbn; lia|]. reflexivity.
  - split; [discriminate|]. split; [set_solver|].
    split; [rewrite invocations_app; unfold invocations at 2; cbn; lia|]. reflexivity.
Qed.

(** X22.  With a final profile and nothing cached, step 6 ends without an
    exception, after one logical call at most, having displayed a
    displayable recommendation: the one the oracle returned, or the
    stock one when the call failed or its result cannot be shown.  That
    recommendation is the one cached (unless the regenerate button
    empties the cache in the same run). *)
Lemma step6_always_recommends (s : session) (c : chain) :
  is_Some (final_profile s) ->
  truthy (recommendation s) = false ->
  let r := step6_generate_recommendation s clicked c in
  run_ending r <> Crashed
  /\ 0 <= oracle_calls r <= 2
  /\ exists rec,
       displayable rec = true
       /\ EDisplay rec ∈ run_trace r
       /\ (clicked <> Some BtnRegenerate -> recommendation (run_state r) = rec)
       /\ (rec = default_recommendation \/ snd (safe_llm_call c) = Returned rec).
Proof.
  intros [p Hp] Hfresh. cbv zeta. unfold step6_generate_recommendation, oracle_calls.
  rewrite Hp, Hfresh.
  assert (Hdefault : forall s0 tr0,
             0 <= invocations tr0 <= 2 ->
             let r := recommend_default s0 clicked tr0 in
             run_ending r <> Crashed
             /\ 0 <= invocations (run_trace r) <= 2
             /\ exists rec,
                  displayable rec = true
                  /\ EDisplay rec ∈ run_trace r
                  /\ (clicked <> Some BtnRegenerate -> recommendation (run_state r) = rec)
                  /\ (rec = default_recommendation
                      \/ snd (safe_llm_call c) = Returned rec)).
  { intros s0 tr0 Htr0. cbv zeta. unfold recommend_default.
    destruct (display_succeeds (set_recommendation default_recommendation s0)
                default_recommendation (tr0 ++ [recommendation_error]) eq_refl)
      as (r & -> & Hend & Hshown & Hcount & Hkeep).
    split; [assumption|]. split.
    { rewrite Hcount, invocations_app.
      replace (invocations [recommendation_error]) with 0 by reflexivity. lia. }
    exists default_recommendation. split; [reflexivity|]. split; [assumption|].
    split; [|left; reflexivity]. intros Hc. rewrite (Hkeep Hc). reflexivity. }
  destruct (negb (joinable _)); [apply Hdefault; unfold invocations; cbn; lia|].
  pose proof (safe_llm_call_invocations_bounds c) as Hcall.
  destruct (safe_llm_call c) as [tr res]. cbn [fst snd] in *.
  destruct res as [e|result]; [apply Hdefault; assumption|].
  destruct (displayable result) eqn:Hd.
  - destruct (display_succeeds
                (set_recommendation result
                   (set_api_call_count (api_call_count s + invocations tr) s))
                result tr Hd) as (r & -> & Hend & Hshown & Hcount & Hkeep).
    split; [assumption|]. split; [rewrite Hcount; assumption|].
    exists result. split; [assumption|]. split; [assumption|].
    split; [|right; reflexivity]. intros Hc. rewrite (Hkeep Hc). reflexivity.
  - match goal with
    | |- context [display_recommendation ?s0 result clicked tr] =>
        replace (display_recommendation s0 result clicked tr) with (@None run)
          by (unfold display_recommendation; rewrite Hd; reflexivity)
    end.
    apply Hdefault. assumption.
Qed.

End AlwaysRecommends.

Lemma step6_always_recommends_witness :
  run_ending
    (step6_generate_recommendation
       (set_final_profile (Some (sample_persona 2)) two_personas) None
       (answers (JList [JInt 1])))
  <> Crashed.
Proof.
  refine (proj1 (step6_always_recommends None
                   (set_final_profile (Some (sample_persona 2)) two_personas)
                   (answers (JList [JInt 1])) _ eq_refl)).
  eexists. reflexivity.
Defined.

(** ** Persona generation *)

Section Objects.

Implicit Types (d : list (string * json)) (key : string) (v default : json).

Lemma dict_get_set_same d key v default : dict_get (dict_set d key v) key default = v.
Proof.
  induction d as [|[k x] d IH]; cbn.
  - rewrite String.eqb_refl. reflexivity.
  - destruct (String.eqb_spec k key) as [->|Hne]; cbn.
    + rewrite String.eqb_refl. reflexivity.
    + destruct (String.eqb_spec k key); [contradiction|assumption].
Qed.

Lemma dict_get_set_other d key key' v default :
  key' <> key -> dict_get (dict_set d key v) key' default = dict_get d key' default.
Proof.
  intros Hne. induction d as [|[k x] d IH]; cbn.
  - destruct (String.eqb_spec key key'); [congruence|reflexivity].
  - destruct (String.eqb_spec k key) as [->|Hk]; cbn.
    + destruct (String.eqb_spec key key'); [congruence|reflexivity].
    + destruct (String.eqb_spec k key'); [reflexivity|assumption].
Qed.

Lemma dict_has_set d key v : dict_has (dict_set d key v) key = true.
Proof.
  unfold dict_has. induction d as [|[k x] d IH]; cbn.
  - rewrite String.eqb_refl. reflexivity.
  - destruct (String.eqb_spec k key) as [->|Hk]; cbn.
    + rewrite String.eqb_refl. reflexivity.
    + destruct (String.eqb_spec k key); [contradiction|assumption].
Qed.

End Objects.

Lemma number_profiles_spec (items : list json) : forall i profiles,
  number_profiles i items = Some profiles ->
  length profiles = length items
  /\ forall k item, items !! k = Some item ->
       exists d, item = JDict d
                 /\ profiles !! k
                    = Some (JDict (dict_set d "profile_id" (JInt (i + Z.of_nat k + 1)))).
Proof.
  induction items as [|item items IH]; intros i profiles Hn; cbn in Hn.
  - injection Hn as <-. split; [reflexivity|]. intros k item Hk. discriminate Hk.
  - destruct item; try discriminate.
    destruct (number_profiles (i + 1) items) as [rest|] eqn:Hrest; [|discriminate].
    injection Hn as <-. destruct (IH _ _ Hrest) as [Hlen Hitems].
    split; [cbn; lia|]. intros [|k] item Hk; cbn in Hk.
    + injection Hk as <-. eexists. split; [reflexivity|].
      replace (i + Z.of_nat 0 + 1) with (i + 1) by lia. reflexivity.
    + destruct (Hitems k item Hk) as (d' & -> & Hp).
      eexists. split; [reflexivity|].
      replace (i + Z.of_nat (S k) + 1) with (i + 1 + Z.of_nat k + 1) by lia.
      exact Hp.
Qed.

Lemma number_profiles_total (items : list json) : forall i,
  Forall is_object items -> is_Some (number_profiles i items).
Proof.
  induction items as [|item items IH]; intros i Hall; cbn; [eexists; reflexivity|].
  apply Forall_cons in Hall as [[d ->] Hall].
  destruct (IH (i + 1) Hall) as [rest ->]. eexists. reflexivity.
Qed.

Lemma number_profiles_renderable (items : list json) : forall i profiles,
  number_profiles i items = Some profiles ->
  forallb Step2.renderable profiles = true.
Proof.
  induction items as [|item items IH]; intros i profiles Hn; cbn in Hn.
  - injection Hn as <-. reflexivity.
  - destruct item; try discriminate.
    destruct (number_profiles (i + 1) items) as [rest|] eqn:Hrest; [|discriminate].
    injection Hn as <-. cbn. rewrite dict_has_set. cbn. eapply IH. eassumption.
Qed.

(** X7.  A processing run whose oracle returns a list with objects in its
    first five places stores the first five of them (fewer when the
    list is shorter), in order: the one at position [k] carries
    [profile_id] k + 1 and is otherwise as the oracle gave it.  The
    page that follows can render them all. *)
Lemma generated_population (s : Step2.state) (clicked : option Step2.button)
    (c : chain) (result : list json) :
  personas_shown s = false ->
  Step2.processing s = true ->
  snd (safe_llm_call c) = Returned (JList result) ->
  Forall is_object (firstn 5 result) ->
  let s' := Step2.run_state (Step2.step2_generate_profiles s clicked c) in
  Step2.profiles_generated s' = true
  /\ Step2.processing s' = false
  /\ length (Step2.user_profiles s') = Nat.min 5 (length result)
  /\ forallb Step2.renderable (Step2.user_profiles s') = true
  /\ forall k item, (k < 5)%nat -> result !! k = Some item ->
       exists d d',
         item = JDict d
         /\ Step2.user_profiles s' !! k = Some (JDict d')
         /\ dict_get d' "profile_id" JNull = JInt (Z.of_nat k + 1)
         /\ forall key default, key <> "profile_id" ->
              dict_get d' key default = dict_get d key default.
Proof.
  intros Hshown Hproc Hres Hobjects. cbv zeta.
  unfold Step2.step2_generate_profiles. unfold personas_shown in Hshown.
  rewrite Hshown, Hproc. cbn [negb andb].
  destruct (safe_llm_call c) as [tr r]. cbn [snd] in Hres. subst r.
  destruct (number_profiles_total (firstn 5 result) 0 Hobjects) as [profiles Hn].
  rewrite Hn. cbn [Step2.run_state Step2.profiles_generated Step2.processing
                   Step2.user_profiles].
  destruct (number_profiles_spec _ _ _ Hn) as [Hlen Hitems].
  split; [reflexivity|]. split; [reflexivity|].
  split; [rewrite Hlen, length_take; reflexivity|].
  split; [eapply number_profiles_renderable; eassumption|].
  intros k item Hk Hitem.
  destruct (Hitems k item) as (d & -> & Hp).
  { rewrite lookup_take_lt by assumption. assumption. }
  eexists d, _. split; [reflexivity|]. split; [exact Hp|]. split.
  { rewrite dict_get_set_same. f_equal; lia. }
  intros key default Hkey. apply dict_get_set_other. assumption.
Qed.

Lemma generated_population_witness :
  length
    (Step2.user_profiles
       (Step2.run_state
          (Step2.step2_generate_profiles
             {| Step2.step := 2; Step2.user_profiles := [];
                Step2.profiles_generated := false; Step2.processing := true;
                Step2.analysis_completed := false |}
             None
             (answers (JList (replicate 6 (JDict [("basic_info", JStr "x")])))))))
  = 5%nat.
Proof.
  refine (proj1 (proj2 (proj2
            (generated_population
               {| Step2.step := 2; Step2.user_profiles := [];
                  Step2.profiles_generated := false; Step2.processing := true;
                  Step2.analysis_completed := false |}
               None
               (answers (JList (replicate 6 (JDict [("basic_info", JStr "x")]))))
               (replicate 6 (JDict [("basic_info", JStr "x")]))
               eq_refl eq_refl eq_refl _)))).
  cbn. repeat constructor; eexists; reflexivity.
Defined.

(** X8.  After a failed generation the sample-data button has no effect:
    the failing run keeps the population and switches [processing]
    off, so the run that follows the click never reaches the branch
    that renders the button, and the stock population is not
    installed. *)
Lemma sample_button_never_fires (s : Step2.state) (c c' : chain) :
  personas_shown s = false ->
  Step2.processing s = true ->
  generation_fails (snd (safe_llm_call c)) ->
  let r1 := Step2.step2_generate_profiles s None c in
  let r2 := Step2.step2_generate_profiles (Step2.run_state r1) (Some Step2.BtnSample) c' in
  Step2.run_ending r1 = Finished
  /\ Step2.user_profiles (Step2.run_state r1) = Step2.user_profiles s
  /\ Step2.processing (Step2.run_state r1) = false
  /\ Step2.run_state r2 = Step2.run_state r1
  /\ Step2.run_trace r2 = [].
Proof.
  intros Hshown Hproc Hfail. cbv zeta.
  assert (Hr1 : Step2.step2_generate_profiles s None c
                = Step2.generation_failed s None (fst (safe_llm_call c))).
  { unfold Step2.step2_generate_profiles. unfold personas_shown in Hshown.
    rewrite Hshown, Hproc. cbn [negb andb Step2.pressed].
    destruct (safe_llm_call c) as [tr r]. cbn [fst snd] in *.
    destruct r as [e|v]; [reflexivity|].
    destruct v; try contradiction. cbn in Hfail. rewrite Hfail. reflexivity. }
  rewrite Hr1. unfold Step2.generation_failed.
  cbn [Step2.pressed Step2.run_state Step2.run_ending Step2.user_profiles
       Step2.processing Step2.profiles_generated].
  split; [reflexivity|]. split; [reflexivity|]. split; [reflexivity|].
  unfold Step2.step2_generate_profiles.
  cbn [Step2.user_profiles Step2.processing Step2.profiles_generated].
  unfold personas_shown in Hshown. rewrite Hshown. cbn. split; reflexivity.
Qed.

Lemma sample_button_never_fires_witness :
  Step2.user_profiles
    (Step2.run_state
       (Step2.step2_generate_profiles
          (Step2.run_state
             (Step2.step2_generate_profiles
                {| Step2.step := 2; Step2.user_profiles := [];
                   Step2.profiles_generated := false; Step2.processing := true;
                   Step2.analysis_completed := false |} None unavailable))
          (Some Step2.BtnSample) unavailable))
  = [].
Proof.
  pose (H := sample_button_never_fires
               {| Step2.step := 2; Step2.user_profiles := [];
                  Step2.profiles_generated := false; Step2.processing := true;
                  Step2.analysis_completed := false |}
               unavailable unavailable eq_refl eq_refl I).
  exact (eq_trans (f_equal Step2.user_profiles (proj1 (proj2 (proj2 (proj2 H)))))
           (proj1 (proj2 H))).
Defined.

(** ** Follow-up questions *)

Lemma stock_qa_pairs_three : forall l, stock_qa_pairs = JList l -> (length l <= 3)%nat.
Proof. intros l H. injection H as <-. cbn. lia. Qed.

(** X24.  What step 7 stores: the three stock pairs, or the first three
    entries at most of what the oracle's object holds under [qa_pairs]
    (of a list, or of a string).  The stock pairs are stored whenever
    the call raises, the result is no object, or [qa_pairs] cannot be
    sliced. *)
Lemma qa_pairs_at_most_three (r : llm_result) :
  (forall l, select_qa_pairs r = JList l -> (length l <= 3)%nat)
  /\ (select_qa_pairs r = stock_qa_pairs
      \/ exists result,
           r = Returned (JDict result)
           /\ match dict_get result "qa_pairs" (JList []) with
              | JList l => select_qa_pairs r = JList (firstn 3 l)
              | JStr s => select_qa_pairs r = JStr (substring 0 3 s)
              | _ => False
              end).
Proof.
  destruct r as [e|v].
  { split; [apply stock_qa_pairs_three|left; reflexivity]. }
  destruct v as [| | | | |l0|result];
    try (split; [apply stock_qa_pairs_three|left; reflexivity]).
  cbn [select_qa_pairs].
  destruct (dict_get result "qa_pairs" (JList [])) as [| | | |str|l0|d0] eqn:Hq;
    cbn [slice3];
    try (split; [apply stock_qa_pairs_three|left; reflexivity]).
  - split; [discriminate|]. right. eexists. split; [reflexivity|]. rewrite Hq. reflexivity.
  - split.
    + intros l' H. injection H as <-. rewrite length_take. lia.
    + right. eexists. split; [reflexivity|]. rewrite Hq. reflexivity.
Qed.

(** X25.  Step 7 keeps no cache: every run asks the oracle (one logical
    call, counted in [api_call_count]); it fails exactly when a stored
    entry is not an object, which cannot happen on the stock pairs. *)
Lemma step7_asks_every_time (s : session) (clicked : option step7_button) (c : chain) :
  let qa_pairs := fst (step7_generate_qa s clicked c) in
  let r := snd (step7_generate_qa s clicked c) in
  1 <= oracle_calls r <= 2
  /\ api_call_count (run_state r) = api_call_count s + oracle_calls r
  /\ qa_pairs = select_qa_pairs (snd (safe_llm_call c))
  /\ (run_ending r = Crashed <-> qa_renderable qa_pairs = false)
  /\ (qa_pairs = stock_qa_pairs -> run_ending r <> Crashed)
  /\ recommendation (run_state r) = recommendation s.
Proof.
  cbv zeta. unfold step7_generate_qa, oracle_calls.
  pose proof (safe_llm_call_at_least_once c) as Hcall.
  destruct (safe_llm_call c) as [tr res]. cbn [fst snd] in *.
  destruct (qa_renderable (select_qa_pairs res)) eqn:Hren; cbn [negb].
  - destruct clicked as [[]|]; cbn [fst snd run_state run_trace run_ending finish rerun
      api_call_count set_api_call_count set_step recommendation];
      rewrite ?invocations_app;
      replace (invocations [ESuccess "推薦プロセスが完了しました"]) with 0 by reflexivity;
      try replace (invocations [EReport]) with 0 by reflexivity;
      (split; [lia|]); (split; [lia|]); (split; [reflexivity|]);
      (split; [split; [discriminate|congruence]|]); (split; [discriminate|reflexivity]).
  - cbn. split; [assumption|]. split; [reflexivity|]. split; [reflexivity|].
    split; [split; [intros _; exact Hren|reflexivity]|]. split; [|reflexivity].
    intros Hstock. rewrite Hstock in Hren. discriminate Hren.
Qed.

(** ** System B: the dialogue *)

Section Dialogue.

Import SystemB.

Lemma alternating_app (h h' : list message) : forall b,
  alternating b (h ++ h')
  = (alternating b h && alternating (if Nat.even (length h) then b else negb b) h')%bool.
Proof.
  induction h as [|m h IH]; intros b; [reflexivity|].
  cbn [app alternating length]. rewrite IH, Nat.even_succ, <- Nat.negb_even.
  destruct (Nat.even (length h)), b; cbn; rewrite ?andb_assoc; reflexivity.
Qed.

Lemma initial_well_formed : well_formed initial.
Proof. repeat split; cbn; lia. Qed.

(** A run that does not raise keeps the dialogue well formed. *)
Lemma main_keeps_well_formed (s : state) (i : input) (a : agents) :
  well_formed s ->
  run_ending (main s i a) <> Crashed ->
  well_formed (run_state (main s i a)).
Proof.
  intros Hwf Hok. pose proof Hwf as (Hturn & Hlen & Halt). unfold main in *.
  destruct (Z.eqb_spec (turn_count s) 0) as [H0|Hn0].
  - unfold start in *. destruct i as [|l_mov d_mov|user_input|]; try exact Hwf.
    destruct (negb (String.eqb l_mov "")); [|exact Hwf].
    destruct (ask_guidance a) as [e|q]; [contradiction Hok; reflexivity|].
    cbn. rewrite H0 in Hlen. cbn in Hlen.
    destruct (chat_history s); [|discriminate]. repeat split; cbn; lia.
  - destruct ((1 <=? turn_count s)%Z && (turn_count s <? 5)%Z)%bool eqn:Hmid.
    + apply andb_prop in Hmid as [H1 H5]. apply Z.leb_le in H1. apply Z.ltb_lt in H5.
      unfold exchange in *. destruct i as [|l_mov d_mov|user_input|]; try exact Hwf.
      destruct (negb (String.eqb user_input "")); [|exact Hwf].
      destruct (planner a) as [e|v]; [contradiction Hok; reflexivity|].
      destruct v; try (contradiction Hok; reflexivity).
      destruct (if match dict_get d "action" (JStr "ask_more") with
                   | JStr x => String.eqb x "answer"
                   | _ => false
                   end then answer_user a else ask_guidance a) as [e|reply];
        [contradiction Hok; reflexivity|].
      assert (Hgoal : forall agent_type,
                 well_formed
                   {| turn_count := turn_count s + 1;
                      chat_history :=
                        (chat_history s ++ [user user_input])
                        ++ [assistant reply agent_type];
                      liked_movie := liked_movie s; disliked_movie := disliked_movie s;
                      recommendation := recommendation s |}).
      { intros agent_type. unfold well_formed. cbn [turn_count chat_history].
        split; [lia|]. split; [rewrite !length_app; cbn; lia|].
        rewrite <- app_assoc, alternating_app, Halt, Hlen.
        replace (Z.to_nat (2 * turn_count s - 1))
          with (S (2 * Z.to_nat (turn_count s - 1))) by lia.
        rewrite Nat.even_succ, Nat.odd_mul. reflexivity. }
      cbn [turn_count]. destruct (5 <=? turn_count s + 1)%Z; apply Hgoal.
    + destruct (5 <=? turn_count s)%Z eqn:H5; [|exact Hwf].
      unfold recommend in *.
      destruct (truthy (recommendation s)) eqn:Hrec.
      * rewrite Hrec in *. destruct (recommendation s);
          try (contradiction Hok; reflexivity).
        destruct i as [|l_mov d_mov|user_input|]; try exact Hwf. apply initial_well_formed.
      * destruct (recommender a) as [e|v]; [contradiction Hok; reflexivity|].
        cbn [recommendation] in *. destruct (truthy v); [|exact Hwf].
        destruct v; try (contradiction Hok; reflexivity).
        destruct i as [|l_mov d_mov|user_input|]; try exact Hwf. apply initial_well_formed.
Qed.

(** X26.  Along any script of runs in which no run raises, the turn counter
    stays between 0 and 5 and the history holds the opening question
    and one user message with its reply per later turn, in alternation. *)
Lemma dialogue_stays_well_formed (script : list (input * agents)) : forall s,
  well_formed s -> smooth s script = true -> well_formed (play s script).
Proof.
  induction script as [|[i a] script IH]; intros s Hwf Hsmooth; [assumption|].
  cbn [play smooth] in *. apply IH.
  - apply main_keeps_well_formed; [assumption|].
    destruct (run_ending (main s i a)); discriminate.
  - destruct (run_ending (main s i a)); [assumption|assumption|discriminate].
Qed.

End Dialogue.
Lemma dialogue_stays_well_formed_witness :
  SystemB.smooth SystemB.initial full_dialogue = true
  /\ well_formed (SystemB.play SystemB.initial full_dialogue).
Proof.
  split; [reflexivity|].
  exact (dialogue_stays_well_formed full_dialogue SystemB.initial
           initial_well_formed eq_refl).
Defined.

Section DialogueLength.

Import SystemB.

Lemma early_runs_invariant (script : list (input * agents)) : forall n s,
  turn_count s <= n ->
  recommendation s = JNull ->
  n + Z.of_nat (length script) <= 5 ->
  turn_count (play s script) <= n + Z.of_nat (length script)
  /\ recommendation (play s script) = JNull.
Proof.
  induction script as [|[i a] script IH]; intros n s Hturn Hrec Hlen.
  - cbn. split; [lia|assumption].
  - cbn [play length] in *.
    assert (Hstep : turn_count (run_state (main s i a)) <= n + 1
                    /\ recommendation (run_state (main s i a)) = JNull).
    { unfold main.
      destruct (Z.eqb_spec (turn_count s) 0) as [H0|Hn0].
      - unfold start. destruct i as [|l_mov d_mov|user_input|]; try (cbn; split; [lia|assumption]).
        destruct (negb (String.eqb l_mov "")); [|cbn; split; [lia|assumption]].
        destruct (ask_guidance a); cbn; split; try assumption; lia.
      - destruct ((1 <=? turn_count s)%Z && (turn_count s <? 5)%Z)%bool eqn:Hmid.
        + unfold exchange.
          destruct i as [|l_mov d_mov|user_input|]; try (cbn; split; [lia|assumption]).
          destruct (negb (String.eqb user_input "")); [|cbn; split; [lia|assumption]].
          destruct (planner a) as [e|v]; [cbn; split; [lia|assumption]|].
          destruct v; try (cbn; split; [lia|assumption]).
          destruct (if match dict_get d "action" (JStr "ask_more") with
                       | JStr x => String.eqb x "answer"
                       | _ => false
                       end then answer_user a else ask_guidance a);
            [cbn; split; [lia|assumption]|].
          cbn [turn_count]. destruct (5 <=? turn_count s + 1)%Z; cbn;
            (split; [lia|assumption]).
        + destruct (5 <=? turn_count s)%Z eqn:H5; [|cbn; split; [lia|assumption]].
          apply Z.leb_le in H5. lia. }
    destruct Hstep as [Hturn' Hrec'].
    destruct (IH (n + 1) _ Hturn' Hrec' ltac:(lia)) as [H1 H2].
    split; [lia|assumption].
Qed.

(** X27.  The recommender is not reached early: after at most five runs from
    the start (the form and four exchanges at best) no recommendation
    is stored, and the turn counter is at most the number of runs. *)
Lemma no_recommendation_before_five_turns (script : list (input * agents)) :
  (length script <= 5)%nat ->
  turn_count (play initial script) <= Z.of_nat (length script)
  /\ recommendation (play initial script) = JNull.
Proof.
  intros Hlen.
  exact (early_runs_invariant script 0 initial ltac:(cbn; lia) eq_refl ltac:(lia)).
Qed.

(** X28.  Once a recommendation is stored (an object), the page of turn 5
    shows it without calling any agent, and only the restart button
    changes the state: it brings back the initial one. *)
Lemma stored_recommendation_is_shown (s : state) (i : input) (a : agents)
    (rec : list (string * json)) :
  5 <= turn_count s ->
  recommendation s = JDict rec ->
  rec <> [] ->
  let r := main s i a in
  run_trace r = [EDisplay (JDict rec)]
  /\ run_ending r <> Crashed
  /\ run_state r = match i with PressRestart => initial | _ => s end.
Proof.
  intros Hturn Hrec Hne. cbv zeta. unfold main.
  destruct (Z.eqb_spec (turn_count s) 0); [lia|].
  destruct (Z.ltb_spec (turn_count s) 5); [lia|]. rewrite andb_false_r.
  destruct (Z.leb_spec 5 (turn_count s)); [|lia].
  unfold recommend. rewrite Hrec.
  destruct rec as [|kv rec]; [congruence|]. cbn [truthy].
  rewrite Hrec. cbn [truthy].
  destruct i; repeat split; discriminate.
Qed.

(** X29.  An agent call that raises during an exchange leaves the message
    of the user in the history, without reply, and the turn counter as
    it was: the dialogue is no longer well formed. *)
Lemma failed_exchange_leaves_message (s : state) (i : input) (a : agents) :
  well_formed s ->
  1 <= turn_count s < 5 ->
  run_ending (main s i a) = Crashed ->
  exists user_input,
    i = ChatInput user_input
    /\ chat_history (run_state (main s i a)) = chat_history s ++ [user user_input]
    /\ turn_count (run_state (main s i a)) = turn_count s
    /\ ~ well_formed (run_state (main s i a)).
Proof.
  intros (_ & Hlen & _) Hturn. unfold main.
  destruct (Z.eqb_spec (turn_count s) 0); [lia|].
  destruct (Z.leb_spec 1 (turn_count s)); [|lia].
  destruct (Z.ltb_spec (turn_count s) 5); [|lia]. cbn [andb].
  unfold exchange.
  destruct i as [|l_mov d_mov|user_input|]; try discriminate.
  destruct (negb (String.eqb user_input "")); [|discriminate].
  assert (Hbroken : forall tr,
             let r := {| run_state :=
                           {| turn_count := turn_count s;
                              chat_history := chat_history s ++ [user user_input];
                              liked_movie := liked_movie s;
                              disliked_movie := disliked_movie s;
                              recommendation := recommendation s |};
                         run_trace := tr; run_ending := Crashed |} in
             exists u,
               ChatInput user_input = ChatInput u
               /\ chat_history (run_state r) = chat_history s ++ [user u]
               /\ turn_count (run_state r) = turn_count s
               /\ ~ well_formed (run_state r)).
  { intros tr. cbv zeta. exists user_input. split; [reflexivity|]. split; [reflexivity|].
    split; [reflexivity|]. intros (_ & Hlen' & _). cbn in Hlen'.
    rewrite length_app, Hlen in Hlen'. cbn in Hlen'. lia. }
  destruct (planner a) as [e|v]; [intros _; apply Hbroken|].
  destruct v; try (intros _; apply Hbroken).
  destruct (if match dict_get d "action" (JStr "ask_more") with
               | JStr x => String.eqb x "answer"
               | _ => false
               end then answer_user a else ask_guidance a);
    [intros _; apply Hbroken|].
  cbn [turn_count]. destruct (5 <=? turn_count s + 1)%Z; discriminate.
Qed.

End DialogueLength.

Lemma no_recommendation_before_five_turns_witness :
  SystemB.turn_count (SystemB.play SystemB.initial full_dialogue) = 5
  /\ SystemB.recommendation (SystemB.play SystemB.initial full_dialogue) = JNull.
Proof.
  split; [reflexivity|].
  refine (proj2 (no_recommendation_before_five_turns full_dialogue _)). cbn. lia.
Defined.

Lemma stored_recommendation_is_shown_witness :
  SystemB.run_trace
    (SystemB.main
       (SystemB.play SystemB.initial (full_dialogue ++ [(SystemB.NoInput, cooperative)]))
       SystemB.NoInput planner_down)
  = [EDisplay (JDict [("movie_title", JStr "Alien")])].
Proof.
  refine (proj1 (stored_recommendation_is_shown
                   (SystemB.play SystemB.initial
                      (full_dialogue ++ [(SystemB.NoInput, cooperative)]))
                   SystemB.NoInput planner_down [("movie_title", JStr "Alien")]
                   _ eq_refl _)).
  - vm_compute. discriminate.
  - discriminate.
Defined.

Lemma failed_exchange_leaves_message_witness :
  exists user_input,
    SystemB.ChatInput "and then?" = SystemB.ChatInput user_input
    /\ SystemB.chat_history
         (SystemB.run_state
            (SystemB.main
               (SystemB.play SystemB.initial [(SystemB.SubmitForm "Alien" "", cooperative)])
               (SystemB.ChatInput "and then?") planner_down))
       = SystemB.chat_history
           (SystemB.play SystemB.initial [(SystemB.SubmitForm "Alien" "", cooperative)])
         ++ [SystemB.user user_input]
    /\ SystemB.turn_count
         (SystemB.run_state
            (SystemB.main
               (SystemB.play SystemB.initial [(SystemB.SubmitForm "Alien" "", cooperative)])
               (SystemB.ChatInput "and then?") planner_down))
       = SystemB.turn_count
           (SystemB.play SystemB.initial [(SystemB.SubmitForm "Alien" "", cooperative)])
    /\ ~ well_formed
           (SystemB.run_state
              (SystemB.main
                 (SystemB.play SystemB.initial
                    [(SystemB.SubmitForm "Alien" "", cooperative)])
                 (SystemB.ChatInput "and then?") planner_down)).
Proof.
  refine (failed_exchange_leaves_message
            (SystemB.play SystemB.initial [(SystemB.SubmitForm "Alien" "", cooperative)])
            (SystemB.ChatInput "and then?") planner_down _ _ eq_refl).
  - repeat split; cbn; lia.
  - cbn. lia.
Defined.

(** ** The variance tells the dimensions that separate personas *)

Section Spread.

Lemma Qsquare_pos (d : Q) : ~ (d == 0)%Q -> (0 < d * d)%Q.
Proof.
  destruct d as [n p]. unfold Qeq, Qlt, Qmult. cbn. intros Hn. nia.
Qed.

Lemma Qsum_pos (l : list Q) (x : Q) :
  Forall (fun y => (0 <= y)%Q) l -> x ∈ l -> (0 < x)%Q -> (0 < Qsum l)%Q.
Proof.
  intros Hall Hin Hx. induction Hall as [|y l Hy Hall IH]; [inversion Hin|].
  cbn. apply elem_of_cons in Hin as [<-|Hin].
  - replace 0%Q with (0 + 0)%Q by reflexivity.
    apply Qplus_lt_le_compat; [assumption|apply Qsum_nonneg; assumption].
  - rewrite (Qplus_comm y (Qsum l)). replace 0%Q with (0 + 0)%Q by reflexivity.
    apply Qplus_lt_le_compat; [apply IH; assumption|assumption].
Qed.

Lemma Qsum_zero (l : list Q) : Forall (fun y => (y == 0)%Q) l -> (Qsum l == 0)%Q.
Proof.
  induction 1 as [|y l Hy _ IH]; cbn; [reflexivity|]. rewrite Hy, IH. reflexivity.
Qed.

Lemma sum_constant (a : Z) (xs : list Z) :
  Forall (fun x => x = a) xs -> fold_right Z.add 0 xs = Z.of_nat (length xs) * a.
Proof.
  induction 1 as [|x xs -> _ IH]; cbn [fold_right length]; [lia|]. rewrite IH. lia.
Qed.

(** Scores that all agree have variance 0. *)
Lemma np_var_constant (a : Z) (xs : list Z) :
  Forall (fun x => x = a) xs -> (np_var xs == 0)%Q.
Proof.
  intros Hall. unfold np_var.
  destruct xs as [|x0 xs0] eqn:Hxs; [reflexivity|]. rewrite <- Hxs in *.
  assert (Hn : ~ (inject_Z (Z.of_nat (length xs)) == 0)%Q).
  { rewrite Hxs. unfold Qeq. cbn. lia. }
  assert (Hmean : (np_mean xs == inject_Z a)%Q).
  { unfold np_mean. rewrite (sum_constant a xs Hall), inject_Z_mult.
    field. assumption. }
  rewrite Qsum_zero; [unfold Qdiv; apply Qmult_0_l|].
  apply Forall_map, Forall_forall. intros x Hx.
  rewrite Forall_forall in Hall. rewrite (Hall x Hx), Hmean. ring.
Qed.

(** Scores that do not all agree have a positive variance. *)
Lemma np_var_spread (xs : list Z) (x y : Z) :
  x ∈ xs -> y ∈ xs -> x <> y -> (0 < np_var xs)%Q.
Proof.
  intros Hx Hy Hxy. unfold np_var.
  assert (Hlen : (0 < inject_Z (Z.of_nat (length xs)))%Q).
  { destruct xs; [inversion Hx|]. unfold Qlt. cbn. lia. }
  apply Qlt_shift_div_l; [assumption|]. rewrite Qmult_0_l.
  assert (Hoff : exists z, z ∈ xs /\ ~ (inject_Z z - np_mean xs == 0)%Q).
  { destruct (Qeq_dec (inject_Z x - np_mean xs) 0) as [Hx0|Hx0]; [|eauto].
    destruct (Qeq_dec (inject_Z y - np_mean xs) 0) as [Hy0|Hy0]; [|eauto].
    exfalso. apply Hxy. apply inject_Z_injective.
    apply (Qplus_inj_r _ _ (- np_mean xs)%Q).
    change ((inject_Z x - np_mean xs == inject_Z y - np_mean xs)%Q).
    rewrite Hx0, Hy0. reflexivity. }
  destruct Hoff as (z & Hz & Hd).
  apply (Qsum_pos _ ((inject_Z z - np_mean xs) * (inject_Z z - np_mean xs))%Q).
  - apply Forall_map, Forall_forall. intros w _. apply Qsquare_nonneg.
  - apply list_elem_of_fmap. exists z. split; [reflexivity|assumption].
  - apply Qsquare_pos. assumption.
Qed.

Lemma column_variances_lookup (scores_matrix : list (list Z)) (j : nat) :
  (j < 7)%nat ->
  column_variances scores_matrix !! j = Some (np_var (column scores_matrix j)).
Proof.
  intros Hj. unfold column_variances. rewrite list_lookup_fmap, lookup_seq_lt by assumption.
  reflexivity.
Qed.

Lemma separates_spread (scores_matrix : list (list Z)) (j : nat) :
  separates scores_matrix j -> (0 < np_var (column scores_matrix j))%Q.
Proof.
  intros (row & row' & Hrow & Hrow' & Hne).
  apply (np_var_spread _ (nth j row 0) (nth j row' 0)); [| |assumption];
    unfold column; apply list_elem_of_fmap; eauto.
Qed.

Lemma spread_separates (scores_matrix : list (list Z)) (j : nat) :
  (0 < np_var (column scores_matrix j))%Q -> separates scores_matrix j.
Proof.
  intros Hpos. destruct scores_matrix as [|row0 rows] eqn:Hm.
  { exfalso. revert Hpos. cbn. unfold Qlt. cbn. lia. }
  rewrite <- Hm in *.
  destruct (decide (Forall (fun x => x = nth j row0 0) (column scores_matrix j)))
    as [Hall|Hnot].
  - exfalso. rewrite (np_var_constant _ _ Hall) in Hpos. exact (Qlt_irrefl _ Hpos).
  - apply not_Forall_Exists in Hnot; [|intros x; apply _].
    apply Exists_exists in Hnot as (x & Hx & Hne).
    unfold column in Hx. apply list_elem_of_fmap in Hx as (row & -> & Hrow).
    exists row, row0. split; [assumption|]. split; [|assumption].
    rewrite Hm. left.
Qed.

End Spread.

(** X12.  While some unused dimension separates two personas, the selector
    picks an unused dimension that separates two personas: it never
    spends a question on which all remaining score vectors agree. *)
Lemma selector_picks_separating_dimension (scores_matrix : list (list Z))
    (used : list nat) :
  (exists j, (j < 7)%nat /\ (j ∉ used) /\ separates scores_matrix j) ->
  let sel := (select_scale (column_variances scores_matrix) used).1 in
  (sel ∉ used) /\ separates scores_matrix sel.
Proof.
  intros (j & Hj & Hfree & Hsep). cbv zeta.
  pose proof (select_scale_in_range (column_variances scores_matrix) used
                (column_variances_length _)) as Hsel.
  destruct (select_scale_unused (column_variances scores_matrix) used
              (column_variances_length _) (column_variances_nonneg _)
              (ex_intro _ j (conj Hj Hfree)))
    as (Hout & _ & _ & m & Hat & Hmax).
  split; [assumption|]. apply spread_separates.
  rewrite column_variances_lookup in Hat by assumption. injection Hat as <-.
  eapply Qlt_le_trans; [apply (separates_spread _ _ Hsep)|].
  apply (Hmax j); [assumption|]. apply column_variances_lookup. assumption.
Qed.

Lemma selector_picks_separating_dimension_witness :
  (select_scale
     (column_variances (map scores (quantitative_analysis three_personas))) [3%nat]).1
  = 0%nat
  /\ separates (map scores (quantitative_analysis three_personas))
       (select_scale
          (column_variances (map scores (quantitative_analysis three_personas)))
          [3%nat]).1.
Proof.
  split; [reflexivity|].
  refine (proj2 (selector_picks_separating_dimension
                   (map scores (quantitative_analysis three_personas)) [3%nat] _)).
  exists 0%nat. split; [lia|]. split.
  - refine (bool_decide_unpack _ _). vm_compute. exact I.
  - exists [1; 5; 5; 2; 5; 5; 9], [2; 5; 5; 8; 5; 5; 9].
    split; [left|]. split; [right; left|]. discriminate.
Defined.

